(** * tidb2dw: resumable replication and dialect SQL synthesis

    A shallow embedding of three pieces of the repository:

    - [cmd]: the progress-marker reader [checkStage] and the stage machine
      [Replicate] (run modes, fall-through over the stages);
    - [bigquerysql]: the merge statement synthesizer [GenMergeInto];
    - [databrickssql]: the DDL synthesizer [GenDDLViaColumnsDiff] and the
      column renderer [GetDatabricksColumnString].

    Go strings are [string], [fmt.Sprintf] with [%s] verbs is concatenation,
    a Go [error] value is an [option error] ([None] is [nil]), and the calls
    the orchestrator makes to its collaborators are recorded in a trace. *)

From stdpp Require Import base list strings gmap.
From Stdlib Require Import ZArith NArith Lia.

Local Open Scope string_scope.
Local Open Scope list_scope.

(** ** Go values shared by the three packages *)

Module Go.

(** Error values.  [ErrExternal] stands for an error handed back by a
    collaborator (storage, TiDB, the change-capture service, ...) that
    carries no stack trace; the other constructors are what
    [github.com/pingcap/errors] builds, and those carry one ([ErrTrace] is
    the stack added to an error that had none). *)
Inductive error : Type :=
| ErrExternal (msg : string)
| ErrNew (msg : string)
| ErrWrap (cause : error) (msg : string)
| ErrAnnotate (cause : error) (msg : string)
| ErrTrace (cause : error).

Global Instance error_eq_dec : EqDecision error.
Proof. solve_decision. Defined.

(** [errors.HasStack]. *)
Definition hasStack (e : error) : bool :=
  match e with
  | ErrExternal _ => false
  | ErrNew _ | ErrWrap _ _ | ErrAnnotate _ _ | ErrTrace _ => true
  end.

(** [errors.AddStack]: an error that carries a stack trace is returned as
    it is. *)
Definition AddStack (e : error) : error :=
  if hasStack e then e else ErrTrace e.

(** [errors.Wrap], [errors.Annotate] and [errors.Trace] all return [nil]
    when they are given [nil]; [errors.Trace] is [AddStack] otherwise. *)
Definition errors_Wrap (err : option error) (msg : string) : option error :=
  match err with
  | None => None
  | Some e => Some (ErrWrap e msg)
  end.

Definition errors_Annotate (err : option error) (msg : string) : option error :=
  match err with
  | None => None
  | Some e => Some (ErrAnnotate e msg)
  end.

Definition errors_Trace (err : option error) : option error :=
  match err with
  | None => None
  | Some e => Some (AddStack e)
  end.

Definition errors_New (msg : string) : option error := Some (ErrNew msg).

(** [strings.Join]. *)
Fixpoint strings_Join (elems : list string) (sep : string) : string :=
  match elems with
  | [] => ""
  | [s] => s
  | s :: rest => s +:+ sep +:+ strings_Join rest sep
  end.

(** The outcome of a Go call that may dereference a nil pointer. *)
Inductive outcome (A : Type) : Type :=
| Returns (a : A)
| Panics.
Global Arguments Returns {A} a.
Global Arguments Panics {A}.

End Go.
Import Go.

(** ** Package cmd: stages, run modes, marker probing and the orchestrator *)

Module Cmd.

Inductive RunMode : Type :=
| RunModeFull
| RunModeSnapshotOnly
| RunModeIncrementalOnly
| RunModeCloud.

Global Instance RunMode_eq_dec : EqDecision RunMode.
Proof. solve_decision. Defined.

Inductive Stage : Type :=
| StageInit
| StageChangefeedCreated
| StageSnapshotDumped
| StageSnapshotLoaded.

Global Instance Stage_eq_dec : EqDecision Stage.
Proof. solve_decision. Defined.

(** A parsed location ([*url.URL]); a nil pointer is [None]. *)
Definition URL : Type := string.

(** What the collaborators answer during one invocation.  Each field is the
    result of the call of the same name; [None] in an error position is a
    Go [nil]. *)
Record World : Type := {
  GetExternalStorage : string -> option error;
  FileExists : string -> bool * option error;
  GetCurrentTSO : N * option error;
  JoinPath : string -> string -> string * option error;
  Parse : string -> option URL * option error;
  NewCDCConnector : option error;
  CreateChangefeed : option error;
  RunDump : option error;
  StartReplicateSnapshot : option error;
  StartReplicateIncrement : option error
}.

(** The calls made to the collaborators, in the order they are made. *)
Inductive Event : Type :=
| EvGetExternalStorage (storagePath : string)
| EvFileExists (name : string)
| EvGetCurrentTSO
| EvNewCDCConnector (startTSO : N) (incrementURI : option URL)
| EvCreateChangefeed
| EvRunDump (snapshotURI : option URL) (startTSO : N)
| EvStartReplicateSnapshot (snapshotURI : option URL)
| EvStartReplicateIncrement (incrementURI : option URL) (interval : Z).

Global Instance Event_eq_dec : EqDecision Event.
Proof. solve_decision. Defined.

(** A computation returns a value together with the calls it made. *)
Definition M (A : Type) : Type := A * list Event.

Definition ret {A : Type} (a : A) : M A := (a, []).

Definition bind {A B : Type} (m : M A) (k : A -> M B) : M B :=
  let '(a, t1) := m in
  let '(b, t2) := k a in
  (b, t1 ++ t2).

Definition call {A : Type} (e : Event) (answer : A) : M A := (answer, [e]).

Declare Scope go_scope.
Delimit Scope go_scope with go.
Notation "'let*' x ':=' m 'in' k" := (bind m (fun x => k))
  (at level 10, x pattern, m at level 100, k at level 200) : go_scope.
Local Open Scope go_scope.

Section Orchestrator.

Variable w : World.

(** [checkStage].  The credentials only travel to the storage backend. *)
Definition checkStage (storagePath : string) : M (Stage * option error) :=
  let stage := StageInit in
  let* err := call (EvGetExternalStorage storagePath) (GetExternalStorage w storagePath) in
  match err with
  | Some _ => ret (stage, err)
  | None =>
    let* (exist', err) := call (EvFileExists "increment/metadata")
                          (FileExists w "increment/metadata") in
    if bool_decide (err <> None) || negb exist' then
      ret (stage, errors_Wrap err "Failed to check increment metadata")
    else
      let stage := StageChangefeedCreated in
      let* (exist', err) := call (EvFileExists "snapshot/metadata")
                            (FileExists w "snapshot/metadata") in
      if bool_decide (err <> None) || negb exist' then
        ret (stage, errors_Wrap err "Failed to check snapshot metadata")
      else
        let stage := StageSnapshotDumped in
        let* (exist', err) := call (EvFileExists "snapshot/loadinfo")
                              (FileExists w "snapshot/loadinfo") in
        if bool_decide (err <> None) || negb exist' then
          ret (stage, errors_Wrap err "Failed to check snapshot loadinfo")
        else
          let stage := StageSnapshotLoaded in
          ret (stage, None)
  end.

(** [genURI]: pure apart from the two [net/url] functions. *)
Definition genURI (storagePath : string) : option URL * option URL * option error :=
  let '(snapStoragePath, err) := JoinPath w storagePath "snapshot" in
  if bool_decide (err <> None) then
    (None, None, errors_Annotate err "Failed to join workspace path")
  else
    let '(snapshotURI, err) := Parse w snapStoragePath in
    if bool_decide (err <> None) then
      (None, None, errors_Annotate err "Failed to parse workspace path")
    else
      let '(increStoragePath, err) := JoinPath w storagePath "increment" in
      if bool_decide (err <> None) then
        (None, None, errors_Annotate err "Failed to join workspace path")
      else
        let '(incrementURI, err) := Parse w increStoragePath in
        if bool_decide (err <> None) then
          (snapshotURI, None, errors_Annotate err "Failed to parse workspace path")
        else
          (snapshotURI, incrementURI, None).

(** The four cases of the [switch] in [Replicate], last one first: a case
    that ends in [fallthrough] continues with the body of the next case. *)
Section Switch.

Variables (mode : RunMode) (startTSO : N) (cdcFlushInterval : Z).
Variables (snapshotURI incrementURI : option URL).

Definition caseSnapshotLoaded : M (option error) :=
  if bool_decide (mode <> RunModeSnapshotOnly) then
    let* err := call (EvStartReplicateIncrement incrementURI (Z.quot cdcFlushInterval 5))
                (StartReplicateIncrement w) in
    if bool_decide (err <> None) then
      ret (errors_Annotate err "Failed to replicate incremental")
    else ret None
  else ret None.

Definition caseSnapshotDumped : M (option error) :=
  if bool_decide (mode <> RunModeIncrementalOnly) then
    let* err := call (EvStartReplicateSnapshot snapshotURI) (StartReplicateSnapshot w) in
    if bool_decide (err <> None) then
      ret (errors_Annotate err "Failed to replicate snapshot")
    else caseSnapshotLoaded
  else caseSnapshotLoaded.

Definition caseChangefeedCreated : M (option error) :=
  if bool_decide (mode <> RunModeIncrementalOnly /\ mode <> RunModeCloud) then
    let* err := call (EvRunDump snapshotURI startTSO) (RunDump w) in
    if bool_decide (err <> None) then ret (errors_Trace err)
    else caseSnapshotDumped
  else caseSnapshotDumped.

Definition caseInit : M (option error) :=
  if bool_decide (mode <> RunModeSnapshotOnly /\ mode <> RunModeCloud) then
    let* err := call (EvNewCDCConnector startTSO incrementURI) (NewCDCConnector w) in
    if bool_decide (err <> None) then ret (errors_Trace err)
    else
      let* err := call EvCreateChangefeed (CreateChangefeed w) in
      if bool_decide (err <> None) then ret (errors_Trace err)
      else caseChangefeedCreated
  else caseChangefeedCreated.

Definition switchStage (stage : Stage) : M (option error) :=
  match stage with
  | StageInit => caseInit
  | StageChangefeedCreated => caseChangefeedCreated
  | StageSnapshotDumped => caseSnapshotDumped
  | StageSnapshotLoaded => caseSnapshotLoaded
  end.

End Switch.

(** [Replicate].  The arguments that are only handed on to the collaborators
    (TiDB configuration, table name, concurrency, change-capture host and
    port, file size, credentials, the two connectors, the time zone) do not
    influence the control flow and are left out. *)
Definition Replicate (storagePath : string) (cdcFlushInterval : Z)
    (mode : RunMode) : M (option error) :=
  let* (stage, err) := checkStage storagePath in
  if bool_decide (err <> None) then ret (errors_Trace err)
  else
    (* the statements that follow the request for a start position *)
    let continue (startTSO : N) : M (option error) :=
      let '(snapshotURI, incrementURI, err) := genURI storagePath in
      if bool_decide (err <> None) then ret (errors_Trace err)
      else
        switchStage mode startTSO cdcFlushInterval snapshotURI incrementURI
                    stage in
    let startTSO := 0%N in
    if bool_decide (mode = RunModeFull) then
      let* (startTSO, err) := call EvGetCurrentTSO (GetCurrentTSO w) in
      if bool_decide (err <> None) then
        ret (errors_Annotate err "Failed to get current TSO")
      else continue startTSO
    else continue startTSO.

End Orchestrator.

(** *** Vocabulary of the specification for the orchestrator *)

(** The four stage actions. *)
Inductive StageAction : Type :=
| ActCreateChangefeed
| ActDumpSnapshot
| ActLoadSnapshot
| ActLoadIncrement.

Global Instance StageAction_eq_dec : EqDecision StageAction.
Proof. solve_decision. Defined.

(** The stage action a call stands for: creating the change feed is the
    change-capture setup, [RunDump] the snapshot dump,
    [StartReplicateSnapshot] the snapshot load and
    [StartReplicateIncrement] the incremental replay.  Probes, the
    position request and the construction of the connector object are not
    stage actions. *)
Definition stageActionOf (e : Event) : option StageAction :=
  match e with
  | EvCreateChangefeed => Some ActCreateChangefeed
  | EvRunDump _ _ => Some ActDumpSnapshot
  | EvStartReplicateSnapshot _ => Some ActLoadSnapshot
  | EvStartReplicateIncrement _ _ => Some ActLoadIncrement
  | _ => None
  end.

(** The stage actions a run executed, in order. *)
Definition executed {A : Type} (run : M A) : list StageAction :=
  omap stageActionOf run.2.

(** The marker probes a run made, in order. *)
Definition probeOf (e : Event) : option string :=
  match e with
  | EvFileExists name => Some name
  | _ => None
  end.

Definition probed {A : Type} (run : M A) : list string :=
  omap probeOf run.2.

(** The action attached to each stage and the stages from an entry stage
    onwards. *)
Definition actionOfStage (s : Stage) : StageAction :=
  match s with
  | StageInit => ActCreateChangefeed
  | StageChangefeedCreated => ActDumpSnapshot
  | StageSnapshotDumped => ActLoadSnapshot
  | StageSnapshotLoaded => ActLoadIncrement
  end.

Definition stagesFrom (s : Stage) : list Stage :=
  match s with
  | StageInit =>
      [StageInit; StageChangefeedCreated; StageSnapshotDumped; StageSnapshotLoaded]
  | StageChangefeedCreated =>
      [StageChangefeedCreated; StageSnapshotDumped; StageSnapshotLoaded]
  | StageSnapshotDumped => [StageSnapshotDumped; StageSnapshotLoaded]
  | StageSnapshotLoaded => [StageSnapshotLoaded]
  end.

(** The run-mode table of the specification: which stage actions a mode
    skips. *)
Definition modeSkips (mode : RunMode) (a : StageAction) : bool :=
  match a, mode with
  | ActCreateChangefeed, (RunModeSnapshotOnly | RunModeCloud) => true
  | ActDumpSnapshot, (RunModeIncrementalOnly | RunModeCloud) => true
  | ActLoadSnapshot, RunModeIncrementalOnly => true
  | ActLoadIncrement, RunModeSnapshotOnly => true
  | _, _ => false
  end.

(** No collaborator fails after the markers have been read. *)
Definition noFailure (w : World) (storagePath : string) : Prop :=
  (GetCurrentTSO w).2 = None /\
  (genURI w storagePath).2 = None /\
  NewCDCConnector w = None /\
  CreateChangefeed w = None /\
  RunDump w = None /\
  StartReplicateSnapshot w = None /\
  StartReplicateIncrement w = None.

(** The marker scan as the specification words it: the markers are probed
    in order, a marker that is found advances the stage by one step, the
    scan stops at the first marker that is not found, and a probe that could
    not be completed is an error. *)
Inductive ProbeResult : Type :=
| MarkerFound
| MarkerAbsent
| ProbeFailed (e : error).

Definition classify (r : bool * option error) : ProbeResult :=
  match r with
  | (_, Some e) => ProbeFailed e
  | (true, None) => MarkerFound
  | (false, None) => MarkerAbsent
  end.

Definition nextStage (s : Stage) : Stage :=
  match s with
  | StageInit => StageChangefeedCreated
  | StageChangefeedCreated => StageSnapshotDumped
  | StageSnapshotDumped => StageSnapshotLoaded
  | StageSnapshotLoaded => StageSnapshotLoaded
  end.

Definition markers : list (string * string) :=
  [("increment/metadata", "Failed to check increment metadata");
   ("snapshot/metadata", "Failed to check snapshot metadata");
   ("snapshot/loadinfo", "Failed to check snapshot loadinfo")].

Fixpoint scanMarkers (probe : string -> bool * option error)
    (ms : list (string * string)) (stage : Stage) : M (Stage * option error) :=
  match ms with
  | [] => ret (stage, None)
  | (name, msg) :: rest =>
      let* r := call (EvFileExists name) (probe name) in
      match classify r with
      | MarkerFound => scanMarkers probe rest (nextStage stage)
      | MarkerAbsent => ret (stage, None)
      | ProbeFailed e => ret (stage, Some (ErrWrap e msg))
      end
  end.

(** *** Sample storage states *)

(** A world in which exactly the markers of [present] exist and no
    collaborator fails. *)
Definition worldWith (present : list string) : World := {|
  GetExternalStorage := fun _ => None;
  FileExists := fun name => (bool_decide (name ∈ present), None);
  GetCurrentTSO := (446744073709551615%N, None);
  JoinPath := fun base elem => (base +:+ "/" +:+ elem, None);
  Parse := fun rawURL => (Some rawURL, None);
  NewCDCConnector := None;
  CreateChangefeed := None;
  RunDump := None;
  StartReplicateSnapshot := None;
  StartReplicateIncrement := None
|}.

(** A restart after the snapshot dump: the first two markers exist. *)
Definition dumpedWorld : World :=
  worldWith ["increment/metadata"; "snapshot/metadata"].

(** A storage whose second probe cannot be completed. *)
Definition brokenWorld : World := {|
  GetExternalStorage := fun _ => None;
  FileExists := fun name =>
    if bool_decide (name = "snapshot/metadata")
    then (false, Some (ErrExternal "connection reset"))
    else (true, None);
  GetCurrentTSO := (446744073709551615%N, None);
  JoinPath := fun base elem => (base +:+ "/" +:+ elem, None);
  Parse := fun rawURL => (Some rawURL, None);
  NewCDCConnector := None;
  CreateChangefeed := None;
  RunDump := None;
  StartReplicateSnapshot := None;
  StartReplicateIncrement := None
|}.

(** *** Failures and hand-over of arguments in [Replicate] *)

(** The stage actions a run can reach from [stage] in [mode]. *)
Definition gatedActions (mode : RunMode) (stage : Stage) : list StageAction :=
  List.filter (fun a => negb (modeSkips mode a))
              (map actionOfStage (stagesFrom stage)).

(** The error [Replicate] returns when stage action [a] fails: the
    change-capture setup fails when either the connector cannot be built or
    the change feed cannot be created. *)
Definition actionFailure (w : World) (a : StageAction) : option error :=
  match a with
  | ActCreateChangefeed =>
      match NewCDCConnector w with
      | Some e => errors_Trace (Some e)
      | None => errors_Trace (CreateChangefeed w)
      end
  | ActDumpSnapshot => errors_Trace (RunDump w)
  | ActLoadSnapshot =>
      errors_Annotate (StartReplicateSnapshot w) "Failed to replicate snapshot"
  | ActLoadIncrement =>
      errors_Annotate (StartReplicateIncrement w)
                      "Failed to replicate incremental"
  end.

Definition firstFailure (w : World) (actions : list StageAction) : option error :=
  head (omap (actionFailure w) actions).

(** The error of what precedes the switch: reading the markers, asking for
    a start position (mode full only) and deriving the two locations. *)
Definition setupFailure (w : World) (storagePath : string) (mode : RunMode)
    : option error :=
  match (checkStage w storagePath).1.2 with
  | Some e => errors_Trace (Some e)
  | None =>
      match mode, (GetCurrentTSO w).2 with
      | RunModeFull, Some e => Some (ErrAnnotate e "Failed to get current TSO")
      | _, _ => errors_Trace (genURI w storagePath).2
      end
  end.

(** The start position handed on: the current TSO in mode full, 0
    otherwise. *)
Definition startPosition (w : World) (mode : RunMode) : N :=
  match mode with
  | RunModeFull => (GetCurrentTSO w).1
  | _ => 0%N
  end.

(** A call carries the arguments [Replicate] derived for it. *)
Definition handedOn (w : World) (storagePath : string) (cdcFlushInterval : Z)
    (mode : RunMode) (e : Event) : Prop :=
  match e with
  | EvNewCDCConnector startTSO incrementURI =>
      startTSO = startPosition w mode /\
      incrementURI = (genURI w storagePath).1.2
  | EvRunDump snapshotURI startTSO =>
      snapshotURI = (genURI w storagePath).1.1 /\
      startTSO = startPosition w mode
  | EvStartReplicateSnapshot snapshotURI =>
      snapshotURI = (genURI w storagePath).1.1
  | EvStartReplicateIncrement incrementURI interval =>
      incrementURI = (genURI w storagePath).1.2 /\
      interval = Z.quot cdcFlushInterval 5
  | EvGetExternalStorage path => path = storagePath
  | EvFileExists _ | EvGetCurrentTSO | EvCreateChangefeed => True
  end.

Definition stageIndex (s : Stage) : nat :=
  match s with
  | StageInit => 0
  | StageChangefeedCreated => 1
  | StageSnapshotDumped => 2
  | StageSnapshotLoaded => 3
  end.

(** A world in which the snapshot dump fails and nothing else does. *)
Definition dumpFailsWorld : World := {|
  GetExternalStorage := fun _ => None;
  FileExists := fun name => (false, None);
  GetCurrentTSO := (446744073709551615%N, None);
  JoinPath := fun base elem => (base +:+ "/" +:+ elem, None);
  Parse := fun rawURL => (Some rawURL, None);
  NewCDCConnector := None;
  CreateChangefeed := None;
  RunDump := Some (ErrExternal "disk full");
  StartReplicateSnapshot := None;
  StartReplicateIncrement := None
|}.

(** A world whose storage cannot be opened. *)
Definition closedWorld : World := {|
  GetExternalStorage := fun _ => Some (ErrExternal "access denied");
  FileExists := fun name => (true, None);
  GetCurrentTSO := (446744073709551615%N, None);
  JoinPath := fun base elem => (base +:+ "/" +:+ elem, None);
  Parse := fun rawURL => (Some rawURL, None);
  NewCDCConnector := None;
  CreateChangefeed := None;
  RunDump := None;
  StartReplicateSnapshot := None;
  StartReplicateIncrement := None
|}.

(** *** [resolveAWSCredential] *)

(** [credentials.Value] of the AWS SDK. *)
Record Credentials : Type := {
  AccessKeyID : string;
  SecretAccessKey : string;
  SessionToken : string;
  ProviderName : string
}.

(** The part of [url.URL] the function reads. *)
Record ParsedURL : Type := {
  Scheme : string;
  Host : string;
  Path : string
}.

Section Credential.

(** [url.Parse], and [Get] on the credentials of the environment. *)
Variable url_Parse : string -> option ParsedURL * option error.
Variable envCredentials_Get : Credentials * option error.

(** The result is a pointer to the credentials and an error; reading the
    scheme of a nil URL would panic. *)
Definition resolveAWSCredential (storagePath : string)
    : outcome (option Credentials * option error) :=
  let '(uri, err) := url_Parse storagePath in
  if bool_decide (err <> None) then Returns (None, errors_Trace err)
  else
    match uri with
    | None => Panics
    | Some uri =>
        if bool_decide (Scheme uri = "s3") then
          let '(credValue, err) := envCredentials_Get in
          Returns (Some credValue, err)
        else Returns (None, errors_New "Not a s3 storage")
    end.

End Credential.

(** A parser that reads the scheme up to the first colon and fails on a
    string without one, and the credentials of a sample environment. *)
Fixpoint schemeOf (s : string) : option string :=
  match s with
  | EmptyString => None
  | String c rest =>
      if bool_decide (c = Ascii.ascii_of_nat 58) then Some ""
      else String c <$> schemeOf rest
  end.

Definition sampleParse (rawURL : string) : option ParsedURL * option error :=
  match schemeOf rawURL with
  | Some scheme =>
      (Some {| Scheme := scheme; Host := ""; Path := rawURL |}, None)
  | None => (None, Some (ErrExternal "missing protocol scheme"))
  end.

Definition sampleCredentials : Credentials := {|
  AccessKeyID := "AKIDEXAMPLE";
  SecretAccessKey := "secret";
  SessionToken := "";
  ProviderName := "EnvProvider"
|}.

End Cmd.

(** ** Package cloudstorage (tiflow): the captured schema *)

Module Cloudstorage.

(** [TableCol]: every field is a string in the schema file. *)
Record TableCol : Type := {
  Name : string;
  Tp : string;
  Precision : string;
  Scale : string;
  Nullable : string;
  IsPK : string
}.

Global Instance TableCol_eq_dec : EqDecision TableCol.
Proof. solve_decision. Defined.

(** The DDL job type of a schema version ([timodel.ActionType]): the six
    constants the synthesizers compare it with, and [ActionOther] for every
    other job type (no table-level change, add column, modify column,
    ...), which the code does not tell apart. *)
Inductive ActionType : Type :=
| ActionCreateSchema
| ActionDropSchema
| ActionCreateTable
| ActionDropTable
| ActionTruncateTable
| ActionRenameTables
| ActionOther.

Global Instance ActionType_eq_dec : EqDecision ActionType.
Proof. solve_decision. Defined.

(** [timodel.ActionRenameTable], the job type of a statement that renames
    one table, is none of the six constants: only [ActionRenameTables], the
    job type of a statement that renames several tables at once, is
    compared with. *)
Definition ActionRenameTable : ActionType := ActionOther.

Record TableDefinition : Type := {
  Table : string;
  Schema : string;
  Type' : ActionType;
  Columns : list TableCol
}.

End Cloudstorage.
Import Cloudstorage.

(** ** Package bigquerysql: the merge statement *)

Module Bigquerysql.

Definition LF : string := String (Ascii.ascii_of_nat 10) EmptyString.
Definition TAB : string := String (Ascii.ascii_of_nat 9) EmptyString.

(** The raw string literal of [GenMergeInto], line by line, with the
    arguments of [fmt.Sprintf] in the places of the [%s] verbs. *)
Definition mergeLines
    (target pk commitTs source on flag1 update flag2 flag3 insert values : string)
    : list string :=
  [ "MERGE INTO " +:+ target +:+ " AS T USING";
    TAB +:+ "(";
    TAB +:+ TAB +:+ "SELECT * EXCEPT(row_num)";
    TAB +:+ TAB +:+ "FROM (";
    TAB +:+ TAB +:+ TAB +:+ "SELECT";
    TAB +:+ TAB +:+ TAB +:+ TAB +:+ "*, row_number() over (partition by "
      +:+ pk +:+ " order by " +:+ commitTs +:+ " desc) as row_num";
    TAB +:+ TAB +:+ TAB +:+ "FROM " +:+ source;
    TAB +:+ TAB +:+ ")";
    TAB +:+ TAB +:+ "WHERE row_num = 1";
    TAB +:+ ") AS S";
    TAB +:+ "ON";
    TAB +:+ "(";
    TAB +:+ TAB +:+ on;
    TAB +:+ ")";
    TAB +:+ "WHEN MATCHED AND S." +:+ flag1 +:+ " != 'D' THEN UPDATE SET "
      +:+ update;
    TAB +:+ "WHEN MATCHED AND S." +:+ flag2 +:+ " = 'D' THEN DELETE";
    TAB +:+ "WHEN NOT MATCHED AND S." +:+ flag3
      +:+ " != 'D' THEN INSERT (" +:+ insert +:+ ") VALUES (" +:+ values
      +:+ ");" ].

Definition mergeTemplate
    (target pk commitTs source on flag1 update flag2 flag3 insert values : string)
    : string :=
  strings_Join
    (mergeLines target pk commitTs source on flag1 update flag2 flag3
                insert values)
    LF.

(** The four loops over the columns; each one appends to a slice. *)
Definition pkColumn_onStat (columns : list TableCol) : list string * list string :=
  fold_left
    (fun acc col =>
       let '(pkColumn, onStat) := acc in
       if bool_decide (IsPK col = "true") then
         (pkColumn ++ [Name col],
          onStat ++ ["T." +:+ Name col +:+ " = S." +:+ Name col])
       else acc)
    columns ([], []).

Definition updateStat (columns : list TableCol) : list string :=
  fold_left
    (fun updateStat col => updateStat ++ [Name col +:+ " = S." +:+ Name col])
    columns [].

Definition insertStat (columns : list TableCol) : list string :=
  fold_left (fun insertStat col => insertStat ++ [Name col]) columns [].

Definition valuesStat (columns : list TableCol) : list string :=
  fold_left (fun valuesStat col => valuesStat ++ ["S." +:+ Name col]) columns [].

Section MergeInto.

(** [utils.CDCCommitTsColumnName] and [utils.CDCFlagColumnName]: the names
    of the two synthetic columns of the change log. *)
Variables (CDCCommitTsColumnName CDCFlagColumnName : string).

Definition GenMergeInto (tableDef : TableDefinition)
    (datasetID tableID externalTableID : string) : string :=
  let '(pkColumn, onStat) := pkColumn_onStat (Columns tableDef) in
  let updateStat := updateStat (Columns tableDef) in
  let insertStat := insertStat (Columns tableDef) in
  let valuesStat := valuesStat (Columns tableDef) in
  let mergeSQL :=
    mergeTemplate
      ("`" +:+ datasetID +:+ "." +:+ tableID +:+ "`")
      (strings_Join pkColumn ", ")
      CDCCommitTsColumnName
      ("`" +:+ datasetID +:+ "." +:+ externalTableID +:+ "`")
      (strings_Join onStat " AND ")
      CDCFlagColumnName
      (strings_Join updateStat ", ")
      CDCFlagColumnName
      CDCFlagColumnName
      (strings_Join insertStat ", ")
      (strings_Join valuesStat ", ") in
  mergeSQL.

End MergeInto.

(** *** The statement the specification describes *)

Inductive FlagTest : Type :=
| FlagNotDelete
| FlagDelete.

Inductive MergeAction : Type :=
| UpdateSet (columns : list string)
| DeleteRow
| InsertValues (columns : list string).

Record WhenClause : Type := {
  whenMatched : bool;
  whenFlag : FlagTest;
  thenDo : MergeAction
}.

(** Step 1 of the specification: the rows of [fromTable], numbered within
    each partition by descending [orderByDesc], of which the rows numbered
    1 are kept. *)
Record DedupSelect : Type := {
  fromTable : string;
  partitionBy : list string;
  orderByDesc : string
}.

(** Step 2: the merge of the deduplicated rows [S] into the target [T],
    joined on equality of [onColumns]. *)
Record MergeStmt : Type := {
  mergeInto : string;
  usingSource : DedupSelect;
  onColumns : list string;
  flagColumn : string;
  whenClauses : list WhenClause
}.

(** Concrete syntax. *)
Definition renderAction (a : MergeAction) : string :=
  match a with
  | UpdateSet columns =>
      "UPDATE SET " +:+
      strings_Join ((fun c => c +:+ " = S." +:+ c) <$> columns) ", "
  | DeleteRow => "DELETE"
  | InsertValues columns =>
      "INSERT (" +:+ strings_Join columns ", " +:+ ") VALUES (" +:+
      strings_Join ((fun c => "S." +:+ c) <$> columns) ", " +:+ ")"
  end.

Definition renderClause (flag : string) (c : WhenClause) : string :=
  TAB +:+ "WHEN " +:+ (if whenMatched c then "MATCHED" else "NOT MATCHED") +:+
  " AND S." +:+ flag +:+
  match whenFlag c with
  | FlagNotDelete => " != 'D'"
  | FlagDelete => " = 'D'"
  end +:+
  " THEN " +:+ renderAction (thenDo c).

Definition renderDedup (q : DedupSelect) : list string :=
  [ TAB +:+ "(";
    TAB +:+ TAB +:+ "SELECT * EXCEPT(row_num)";
    TAB +:+ TAB +:+ "FROM (";
    TAB +:+ TAB +:+ TAB +:+ "SELECT";
    TAB +:+ TAB +:+ TAB +:+ TAB +:+ "*, row_number() over (partition by " +:+
      strings_Join (partitionBy q) ", " +:+ " order by " +:+ orderByDesc q +:+
      " desc) as row_num";
    TAB +:+ TAB +:+ TAB +:+ "FROM " +:+ fromTable q;
    TAB +:+ TAB +:+ ")";
    TAB +:+ TAB +:+ "WHERE row_num = 1";
    TAB +:+ ") AS S" ].

Definition renderMerge (m : MergeStmt) : string :=
  strings_Join
    (["MERGE INTO " +:+ mergeInto m +:+ " AS T USING"] ++
     renderDedup (usingSource m) ++
     [ TAB +:+ "ON";
       TAB +:+ "(";
       TAB +:+ TAB +:+
         strings_Join ((fun c => "T." +:+ c +:+ " = S." +:+ c) <$> onColumns m)
                      " AND ";
       TAB +:+ ")" ] ++
     (renderClause (flagColumn m) <$> whenClauses m))
    LF +:+ ";".

(** The statement of the specification for a table with primary-key
    columns [pk]: partition by the key, newest first; join on the key;
    update when matched and not deleted, delete when matched and deleted,
    insert when not matched and not deleted.  [updated] lists the columns
    the update assigns. *)
Definition specMerge (commitTs flag : string) (pk updated all : list string)
    (target source : string) : MergeStmt := {|
  mergeInto := target;
  usingSource :=
    {| fromTable := source; partitionBy := pk; orderByDesc := commitTs |};
  onColumns := pk;
  flagColumn := flag;
  whenClauses :=
    [ {| whenMatched := true; whenFlag := FlagNotDelete;
         thenDo := UpdateSet updated |};
      {| whenMatched := true; whenFlag := FlagDelete; thenDo := DeleteRow |};
      {| whenMatched := false; whenFlag := FlagNotDelete;
         thenDo := InsertValues all |} ]
|}.

Definition pkNames (columns : list TableCol) : list string :=
  Name <$> filter (fun col => IsPK col = "true") columns.

Definition nonKeyNames (columns : list TableCol) : list string :=
  Name <$> filter (fun col => IsPK col <> "true") columns.

Definition allNames (columns : list TableCol) : list string :=
  Name <$> columns.

(** *** What the statement does to rows

    The warehouse executes the statement; its meaning is fixed here by the
    reading the specification gives of it: the window numbers the rows of a
    partition from the largest ordering key down (the earlier row first
    among equal keys), and a row is handled by the first WHEN clause whose
    condition it meets. *)

Inductive Value : Type :=
| VInt (n : Z)
| VText (s : string).

Global Instance Value_eq_dec : EqDecision Value.
Proof. solve_decision. Defined.

(** A row maps column names to values; a missing column is NULL. *)
Definition Row : Type := gmap string Value.

Section Window.

Context {R K : Type} `{EqDecision K} (key : R -> K) (ord : R -> Z).

(** [a] comes before [b] in the window of [b]: same partition, and either a
    larger ordering key or the same key at an earlier position. *)
Definition outranks (a b : nat * R) : Prop :=
  key a.2 = key b.2 /\
  ((ord b.2 < ord a.2)%Z \/ (ord a.2 = ord b.2 /\ a.1 < b.1)).

Global Instance outranks_dec (a b : nat * R) : Decision (outranks a b).
Proof. unfold outranks. apply _. Defined.

(** [row_number() over (partition by key order by ord desc)]. *)
Definition rowNumber (rows : list R) (b : nat * R) : nat :=
  S (length (filter (fun a => outranks a b) (imap pair rows))).

(** The rows numbered 1. *)
Definition topRows (rows : list R) : list R :=
  (filter (fun b => rowNumber rows b = 1) (imap pair rows)).*2.

End Window.

Definition partitionKey (columns : list string) (r : Row) : list (option Value) :=
  (fun c => r !! c) <$> columns.

Definition orderKey (column : string) (r : Row) : Z :=
  match r !! column with
  | Some (VInt n) => n
  | _ => 0%Z
  end.

Definition runDedup (q : DedupSelect) (log : list Row) : list Row :=
  topRows (partitionKey (partitionBy q)) (orderKey (orderByDesc q)) log.

(** A flag test holds only for a flag that is not NULL. *)
Definition flagHolds (t : FlagTest) (flag : option Value) : bool :=
  match t, flag with
  | FlagDelete, Some v => bool_decide (v = VText "D")
  | FlagNotDelete, Some v => bool_decide (v <> VText "D")
  | _, None => false
  end.

(** The first clause whose condition holds decides what happens to a row. *)
Definition selectClause (clauses : list WhenClause) (matched : bool)
    (flag : option Value) : option MergeAction :=
  thenDo <$>
    List.find
      (fun c => Bool.eqb (whenMatched c) matched && flagHolds (whenFlag c) flag)
      clauses.

Definition joins (on : list string) (t s : Row) : bool :=
  forallb
    (fun c =>
       match t !! c, s !! c with
       | Some a, Some b => bool_decide (a = b)
       | _, _ => false
       end)
    on.

Definition assignFrom (columns : list string) (s t : Row) : Row :=
  foldr
    (fun c acc =>
       match s !! c with
       | Some v => <[c := v]> acc
       | None => delete c acc
       end)
    t columns.

Definition runMerge (m : MergeStmt) (target log : list Row) : list Row :=
  let S := runDedup (usingSource m) log in
  let clauseFor matched s :=
    selectClause (whenClauses m) matched (s !! flagColumn m) in
  flat_map
    (fun t =>
       match List.find (joins (onColumns m) t) S with
       | None => [t]
       | Some s =>
           match clauseFor true s with
           | Some (UpdateSet columns) => [assignFrom columns s t]
           | Some DeleteRow => []
           | _ => [t]
           end
       end)
    target ++
  flat_map
    (fun s =>
       if existsb (fun t => joins (onColumns m) t s) target then []
       else
         match clauseFor false s with
         | Some (InsertValues columns) => [assignFrom columns s ∅]
         | _ => []
         end)
    S.

(** Position [i] of the log is kept by the selection. *)
Definition keptAt (q : DedupSelect) (log : list Row) (i : nat) : Prop :=
  exists r, log !! i = Some r /\
    rowNumber (partitionKey (partitionBy q)) (orderKey (orderByDesc q))
              log (i, r) = 1.

(** *** Sample tables and rows *)

Definition column (name tp nullable isPK : string) : TableCol :=
  {| Name := name; Tp := tp; Precision := ""; Scale := "";
     Nullable := nullable; IsPK := isPK |}.

(** A table keyed by [id]. *)
Definition usersTable : TableDefinition := {|
  Table := "users";
  Schema := "app";
  Type' := ActionOther;
  Columns := [column "id" "int" "false" "true";
              column "name" "varchar" "true" "false"]
|}.


(** A change-log row and a row of the target for [usersTable], with the
    synthetic columns called [commit_ts] and [flag]. *)
Definition logRow (id : Z) (name : string) (ord : Z) (flag : string) : Row :=
  {[ "id" := VInt id; "name" := VText name;
     "commit_ts" := VInt ord; "flag" := VText flag ]}.

Definition userRow (id : Z) (name : string) : Row :=
  {[ "id" := VInt id; "name" := VText name ]}.

(** *** [GenCreateSchema] *)

Section CreateSchema.

(** [GetBigQueryColumnString] lives in a file that is not part of this
    development; its second argument is always [true] here. *)
Variable GetBigQueryColumnString : TableCol -> bool -> string * option error.

(** The first loop: one rendered row per column, given up at the first
    column that cannot be rendered. *)
Fixpoint columnRowsLoop (columns : list TableCol) (columnRows : list string)
    : list string * option error :=
  match columns with
  | [] => (columnRows, None)
  | column :: rest =>
      let '(row, err) := GetBigQueryColumnString column true in
      if bool_decide (err <> None) then ([], errors_Trace err)
      else columnRowsLoop rest (columnRows ++ [row])
  end.

(** The loop that indents: [sqlRows[i]] is overwritten for every index
    below the length, so no index is out of range. *)
Definition indentRows (sqlRows : list string) : list string :=
  fold_left
    (fun sqlRows i =>
       match sqlRows !! i with
       | Some row => <[i := "    " +:+ row]> sqlRows
       | None => sqlRows
       end)
    (seq 0 (length sqlRows)) sqlRows.

Definition GenCreateSchema (columns : list TableCol) (pkColumns : list string)
    (datasetID tableID : string) : string * option error :=
  let '(columnRows, err) := columnRowsLoop columns [] in
  if bool_decide (err <> None) then ("", err)
  else
    let sqlRows := [] ++ columnRows in
    let sqlRows :=
      if bool_decide (0 < length pkColumns) then
        sqlRows ++
        ["PRIMARY KEY (" +:+ strings_Join pkColumns ", " +:+ ") NOT ENFORCED"]
      else sqlRows in
    let sqlRows := indentRows sqlRows in
    let sql := [] in
    let sql :=
      sql ++ ["CREATE OR REPLACE TABLE " +:+ datasetID +:+ "." +:+ tableID +:+ " ("] in
    let sql := sql ++ [strings_Join sqlRows ("," +:+ LF)] in
    let sql := sql ++ [")"] in
    (strings_Join sql LF, None).

End CreateSchema.

(** A column renderer that knows two types. *)
Definition sampleColumnString (column : TableCol) (createTable : bool)
    : string * option error :=
  if bool_decide (Tp column = "int") then (Name column +:+ " INT64", None)
  else if bool_decide (Tp column = "varchar") then
    (Name column +:+ " STRING", None)
  else ("", Some (ErrExternal "unsupported type")).

End Bigquerysql.

(** ** Package tidbsql: the column diff handed to the synthesizers *)

Module Tidbsql.

Inductive ColumnDiffType : Type :=
| UNCHANGE
| ADD_COLUMN
| DROP_COLUMN
| MODIFY_COLUMN
| RENAME_COLUMN.

Global Instance ColumnDiffType_eq_dec : EqDecision ColumnDiffType.
Proof. solve_decision. Defined.

(** [Before] and [After] are pointers; a nil pointer is [None]. *)
Record ColumnDiff : Type := {
  Action : ColumnDiffType;
  Before : option TableCol;
  After : option TableCol
}.

End Tidbsql.
Import Tidbsql.

(** ** Package databrickssql: DDL from a column diff *)

Module Databrickssql.

(** What [GenDDLViaColumnsDiff] hands back: the statements and the error of
    its Go result (or a panic on a nil column pointer), and the calls it
    made to [tidbsql.GetColumnDiff], each with its two arguments. *)
Definition DiffCall : Type := list TableCol * list TableCol.

Section Synthesizer.

(** [tidbsql.GetColumnDiff] and [GetDatabricksTypeString] live in files
    that are not part of this development. *)
Variable GetColumnDiff :
  list TableCol -> list TableCol -> list ColumnDiff * option error.
Variable GetDatabricksTypeString : TableCol -> string * option error.

Definition GetDatabricksColumnString (column : TableCol) : string * option error :=
  let '(typeStr, err) := GetDatabricksTypeString column in
  if bool_decide (err <> None) then ("", errors_Trace err)
  else
    let sb := Name column +:+ " " +:+ typeStr in
    let sb :=
      if bool_decide (Nullable column = "false") then sb +:+ " NOT NULL"
      else sb in
    (sb, None).

(** The end of the loop body: a statement that is not empty gets its
    semicolon and is appended. *)
Definition appendDDL (ddls : list string) (ddl : string) : list string :=
  if bool_decide (ddl <> "") then ddls ++ [ddl +:+ ";"] else ddls.

(** The loop over the diff, started with the statements collected so far. *)
Fixpoint renderItems (table : string) (columnDiff : list ColumnDiff)
    (ddls : list string) : outcome (list string * option error) :=
  match columnDiff with
  | [] => Returns (ddls, None)
  | item :: rest =>
      let ddl := "" in
      match Action item with
      | ADD_COLUMN =>
          let ddl := ddl +:+ ("ALTER TABLE " +:+ table +:+ " ADD COLUMN ") in
          match After item with
          | None => Panics
          | Some after =>
              let '(colStr, err) := GetDatabricksColumnString after in
              if bool_decide (err <> None) then Returns ([], errors_Trace err)
              else
                let ddl := ddl +:+ colStr in
                renderItems table rest (appendDDL ddls ddl)
          end
      | DROP_COLUMN =>
          match Before item with
          | None => Panics
          | Some before =>
              let ddl :=
                ddl +:+ ("ALTER TABLE " +:+ table +:+ " DROP COLUMN " +:+
                         Name before) in
              renderItems table rest (appendDDL ddls ddl)
          end
      | MODIFY_COLUMN =>
          Returns
            ([], errors_New
                   "Received modify column ddl, which is not supported by Databricks yet")
      | RENAME_COLUMN =>
          match Before item, After item with
          | Some before, Some after =>
              let ddl :=
                ddl +:+ ("ALTER TABLE " +:+ table +:+ " RENAME COLUMN " +:+
                         Name before +:+ " TO " +:+ Name after) in
              renderItems table rest (appendDDL ddls ddl)
          | _, _ => Panics
          end
      | UNCHANGE => renderItems table rest (appendDDL ddls ddl)
      end
  end.

Definition GenDDLViaColumnsDiff (prevColumns : list TableCol)
    (curTableDef : TableDefinition)
    : outcome (list string * option error) * list DiffCall :=
  if bool_decide (Type' curTableDef = ActionTruncateTable) then
    (Returns (["TRUNCATE TABLE " +:+ Table curTableDef], None), [])
  else if bool_decide (Type' curTableDef = ActionDropTable) then
    (Returns (["DROP TABLE " +:+ Table curTableDef], None), [])
  else if bool_decide (Type' curTableDef = ActionCreateTable) then
    (Returns ([], errors_New "Received create table ddl, which should not happen"),
     [])
  else if bool_decide (Type' curTableDef = ActionRenameTables) then
    (Returns
       ([], errors_New
              ("Received rename table ddl, new change data can not be capture by TiCDC any more." +:+
               "If you want to rename table, please start a new task to capture the new table")),
     [])
  else if bool_decide (Type' curTableDef = ActionDropSchema) then
    (Returns (["DROP SCHEMA " +:+ Schema curTableDef +:+ " CASCADE"], None), [])
  else if bool_decide (Type' curTableDef = ActionCreateSchema) then
    (Returns ([], errors_New "Received create schema ddl, which should not happen"),
     [])
  else
    let calls := [(prevColumns, Columns curTableDef)] in
    let '(columnDiff, err) := GetColumnDiff prevColumns (Columns curTableDef) in
    if bool_decide (err <> None) then (Returns ([], errors_Trace err), calls)
    else (renderItems (Table curTableDef) columnDiff [], calls).

(** *** Vocabulary of the specification for the DDL synthesizer *)

(** The nil pointers the loop would dereference are absent. *)
Definition wellFormed (item : ColumnDiff) : Prop :=
  match Action item with
  | ADD_COLUMN => is_Some (After item)
  | DROP_COLUMN => is_Some (Before item)
  | RENAME_COLUMN => is_Some (Before item) /\ is_Some (After item)
  | MODIFY_COLUMN | UNCHANGE => True
  end.

(** The items that stand for a statement: Add, Drop and Rename. *)
Definition producesDDL (item : ColumnDiff) : Prop :=
  Action item = ADD_COLUMN \/ Action item = DROP_COLUMN \/
  Action item = RENAME_COLUMN.

Global Instance producesDDL_dec (item : ColumnDiff) : Decision (producesDDL item).
Proof. unfold producesDDL. apply _. Defined.

(** An added column whose type the dialect can render. *)
Definition renderable (item : ColumnDiff) : Prop :=
  match Action item, After item with
  | ADD_COLUMN, Some after => (GetDatabricksTypeString after).2 = None
  | _, _ => True
  end.

(** The statement of one item, as the specification lists them. *)
Definition statementOf (table : string) (item : ColumnDiff) : option string :=
  match Action item, Before item, After item with
  | ADD_COLUMN, _, Some after =>
      Some ("ALTER TABLE " +:+ table +:+ " ADD COLUMN " +:+
            (GetDatabricksColumnString after).1 +:+ ";")
  | DROP_COLUMN, Some before, _ =>
      Some ("ALTER TABLE " +:+ table +:+ " DROP COLUMN " +:+ Name before +:+ ";")
  | RENAME_COLUMN, Some before, Some after =>
      Some ("ALTER TABLE " +:+ table +:+ " RENAME COLUMN " +:+ Name before +:+
            " TO " +:+ Name after +:+ ";")
  | _, _, _ => None
  end.

End Synthesizer.

(** *** Sample schema changes *)

Definition col (name tp nullable : string) : TableCol :=
  {| Name := name; Tp := tp; Precision := ""; Scale := "";
     Nullable := nullable; IsPK := "false" |}.

(** A diff engine that answers [diff]. *)
Definition answering (diff : list ColumnDiff)
    : list TableCol -> list TableCol -> list ColumnDiff * option error :=
  fun _ _ => (diff, None).

(** A type renderer that knows two types. *)
Definition sampleTypeString (column : TableCol) : string * option error :=
  if bool_decide (Tp column = "int") then ("INT", None)
  else if bool_decide (Tp column = "varchar") then ("STRING", None)
  else ("", Some (ErrExternal "unsupported type")).

Definition ordersTable (type : ActionType) : TableDefinition := {|
  Table := "orders";
  Schema := "shop";
  Type' := type;
  Columns := [col "id" "int" "false"; col "note" "varchar" "true"]
|}.

Definition ordersBefore : list TableCol :=
  [col "id" "int" "false"; col "memo" "varchar" "true"; col "qty" "int" "false"].

(** Column [memo] is dropped and the type of [id] changes. *)
Definition dropAndModify : list ColumnDiff :=
  [ {| Action := DROP_COLUMN; Before := Some (col "memo" "varchar" "true");
       After := None |};
    {| Action := MODIFY_COLUMN; Before := Some (col "id" "int" "false");
       After := Some (col "id" "bigint" "false") |} ].

(** Column [note] is added, [memo] is dropped, [id] stays and [qty] is
    renamed. *)
Definition addDropRename : list ColumnDiff :=
  [ {| Action := ADD_COLUMN; Before := None;
       After := Some (col "note" "varchar" "true") |};
    {| Action := DROP_COLUMN; Before := Some (col "memo" "varchar" "true");
       After := None |};
    {| Action := UNCHANGE; Before := Some (col "id" "int" "false");
       After := Some (col "id" "int" "false") |};
    {| Action := RENAME_COLUMN; Before := Some (col "qty" "int" "false");
       After := Some (col "quantity" "int" "false") |} ].

(** *** Items the dialect refuses *)

Section Refusal.

Variable GetDatabricksTypeString : TableCol -> string * option error.

(** The error an item makes the loop return: a Modify item is refused, and
    so is an added column whose type cannot be rendered; the error of the
    type renderer comes back with a stack trace. *)
Definition refusal (item : ColumnDiff) : option error :=
  match Action item, After item with
  | MODIFY_COLUMN, _ =>
      Some (ErrNew
              "Received modify column ddl, which is not supported by Databricks yet")
  | ADD_COLUMN, Some after =>
      match (GetDatabricksTypeString after).2 with
      | Some e => Some (AddStack e)
      | None => None
      end
  | _, _ => None
  end.

End Refusal.

(** The diff of a schema version whose columns are those of the version
    before it, as after a rename of the table. *)
Definition nothingChanged : list ColumnDiff :=
  [ {| Action := UNCHANGE;
       Before := Some {| Name := "id"; Tp := "int"; Precision := "";
                         Scale := ""; Nullable := "false"; IsPK := "false" |};
       After := Some {| Name := "id"; Tp := "int"; Precision := "";
                        Scale := ""; Nullable := "false"; IsPK := "false" |} |};
    {| Action := UNCHANGE;
       Before := Some {| Name := "note"; Tp := "varchar"; Precision := "";
                         Scale := ""; Nullable := "true"; IsPK := "false" |};
       After := Some {| Name := "note"; Tp := "varchar"; Precision := "";
                        Scale := ""; Nullable := "true"; IsPK := "false" |} |} ].

(** A statement that alters [table] and ends in a semicolon. *)
Definition altersTable (table ddl : string) : Prop :=
  exists body, ddl = "ALTER TABLE " +:+ table +:+ " " +:+ body +:+ ";".

(** Column [code] of a type the sample renderer does not know is added
    after [memo] is dropped. *)
Definition dropAndAddUnknown : list ColumnDiff :=
  [ {| Action := DROP_COLUMN;
       Before := Some {| Name := "memo"; Tp := "varchar"; Precision := "";
                         Scale := ""; Nullable := "true"; IsPK := "false" |};
       After := None |};
    {| Action := ADD_COLUMN; Before := None;
       After := Some {| Name := "code"; Tp := "geometry"; Precision := "";
                        Scale := ""; Nullable := "true"; IsPK := "false" |} |} ].

End Databrickssql.

(** * Theorems *)

Lemma string_app_assoc (a b c : string) :
  (a +:+ b) +:+ c = a +:+ (b +:+ c).
Proof.
  induction a as [|ch a IH]; [reflexivity|].
  change (String ch ((a +:+ b) +:+ c) = String ch (a +:+ (b +:+ c))).
  now f_equal.
Qed.

(** Tracing an error twice adds one stack trace. *)
Lemma AddStack_idemp (e : error) : AddStack (AddStack e) = AddStack e.
Proof. destruct e; reflexivity. Qed.

(** ** The orchestrator *)

Section CmdFacts.

Import Cmd.

Lemma bool_decide_nil_error `{!Decision (@None error <> None)} :
  bool_decide (@None error <> None) = false.
Proof. apply bool_decide_eq_false_2. intros H. now apply H. Qed.

(** [checkStage] makes no stage action. *)
Lemma checkStage_executes_nothing (w : World) (storagePath : string) :
  executed (checkStage w storagePath) = [].
Proof.
  unfold executed, checkStage, bind, call, ret.
  destruct (GetExternalStorage w storagePath); [reflexivity|].
  destruct (FileExists w "increment/metadata") as [[|] [e1|]];
    try reflexivity.
  destruct (FileExists w "snapshot/metadata") as [[|] [e2|]];
    try reflexivity.
  destruct (FileExists w "snapshot/loadinfo") as [[|] [e3|]];
    reflexivity.
Qed.

(** What a run executes when nothing fails: the gated suffix of the stage
    actions, starting at the entry stage. *)
Lemma Replicate_runs (w : World) (storagePath : string) (cdcFlushInterval : Z)
    (mode : RunMode) (stage : Stage) :
  (checkStage w storagePath).1 = (stage, None) ->
  noFailure w storagePath ->
  (Replicate w storagePath cdcFlushInterval mode).1 = None /\
  executed (Replicate w storagePath cdcFlushInterval mode) =
    List.filter (fun a => negb (modeSkips mode a))
                (map actionOfStage (stagesFrom stage)).
Proof.
  intros Hstage (Htso & Huri & Hnew & Hcf & Hdump & Hsnap & Hinc).
  pose proof (checkStage_executes_nothing w storagePath) as Hquiet.
  unfold executed in *. unfold Replicate, bind.
  destruct (checkStage w storagePath) as [[stage' err] tr0].
  simpl in Hstage, Hquiet. injection Hstage as -> ->.
  rewrite bool_decide_nil_error.
  destruct (GetCurrentTSO w) as [tso errTSO]. simpl in Htso. subst errTSO.
  destruct (genURI w storagePath) as [[snapshotURI incrementURI] errURI].
  simpl in Huri. subst errURI.
  destruct mode, stage; simpl;
    unfold switchStage, caseInit, caseChangefeedCreated, caseSnapshotDumped,
      caseSnapshotLoaded, bind, call, ret; simpl;
    rewrite ?Hnew, ?Hcf, ?Hdump, ?Hsnap, ?Hinc; simpl;
    rewrite ?omap_app, ?Hquiet; split; reflexivity.
Qed.

(** C3.  Entered at the stage [checkStage] returns, and with no
    collaborator failing, one invocation of [Replicate] returns nil and has
    executed the action of the entry stage and of every later stage, in
    stage order, each one unless the run mode skips it; in mode full, which
    skips nothing, that is the action of every stage from the entry stage
    on. *)
Theorem Replicate_falls_through (w : World) (storagePath : string)
    (cdcFlushInterval : Z) (mode : RunMode) (stage : Stage) :
  (checkStage w storagePath).1 = (stage, None) ->
  noFailure w storagePath ->
  (Replicate w storagePath cdcFlushInterval mode).1 = None /\
  executed (Replicate w storagePath cdcFlushInterval mode) =
    List.filter (fun a => negb (modeSkips mode a))
                (map actionOfStage (stagesFrom stage)) /\
  (mode = RunModeFull ->
   executed (Replicate w storagePath cdcFlushInterval mode) =
     map actionOfStage (stagesFrom stage)).
Proof.
  intros Hstage Hok.
  destruct (Replicate_runs w storagePath cdcFlushInterval mode stage Hstage Hok)
    as [Hnil Hexec].
  split; [exact Hnil|]. split; [exact Hexec|].
  intros ->. rewrite Hexec. destruct stage; reflexivity.
Qed.

Lemma Replicate_falls_through_witness :
  (Replicate (worldWith []) "s3://bucket/ws" 60 RunModeFull).1 = None /\
  executed (Replicate (worldWith []) "s3://bucket/ws" 60 RunModeFull) =
    [ActCreateChangefeed; ActDumpSnapshot; ActLoadSnapshot; ActLoadIncrement].
Proof.
  destruct (Replicate_falls_through (worldWith []) "s3://bucket/ws" 60
              RunModeFull StageInit) as (Hnil & Hexec & _).
  - reflexivity.
  - repeat split; reflexivity.
  - split; [exact Hnil | exact Hexec].
Defined.

(** C4.  With no collaborator failing, whether a stage action runs depends
    on the entry stage and the run mode exactly as the table says:
    change-capture setup runs iff the entry stage is init and the mode is
    neither snapshot-only nor cloud; the snapshot dump runs iff the entry
    stage is init or changefeed-created and the mode is neither
    incremental-only nor cloud; the snapshot load runs iff the entry stage
    is not snapshot-loaded and the mode is not incremental-only; the
    incremental replay runs iff the mode is not snapshot-only. *)
Theorem Replicate_mode_gating (w : World) (storagePath : string)
    (cdcFlushInterval : Z) (mode : RunMode) (stage : Stage) :
  (checkStage w storagePath).1 = (stage, None) ->
  noFailure w storagePath ->
  let done := executed (Replicate w storagePath cdcFlushInterval mode) in
  (ActCreateChangefeed ∈ done <->
     stage = StageInit /\
     mode <> RunModeSnapshotOnly /\ mode <> RunModeCloud) /\
  (ActDumpSnapshot ∈ done <->
     (stage = StageInit \/ stage = StageChangefeedCreated) /\
     mode <> RunModeIncrementalOnly /\ mode <> RunModeCloud) /\
  (ActLoadSnapshot ∈ done <->
     stage <> StageSnapshotLoaded /\ mode <> RunModeIncrementalOnly) /\
  (ActLoadIncrement ∈ done <-> mode <> RunModeSnapshotOnly).
Proof.
  intros Hstage Hok done.
  destruct (Replicate_runs w storagePath cdcFlushInterval mode stage Hstage Hok)
    as [_ Hexec].
  subst done. rewrite Hexec. clear Hexec Hstage Hok.
  destruct mode, stage; simpl;
    rewrite ?elem_of_cons, ?elem_of_nil;
    repeat split; try congruence; intuition congruence.
Qed.

Lemma Replicate_mode_gating_witness :
  (ActCreateChangefeed ∉
     executed (Replicate (worldWith []) "s3://bucket/ws" 60 RunModeCloud)) /\
  (ActLoadSnapshot ∈
     executed (Replicate (worldWith []) "s3://bucket/ws" 60 RunModeCloud)).
Proof.
  destruct (Replicate_mode_gating (worldWith []) "s3://bucket/ws" 60
              RunModeCloud StageInit) as (Hcf & _ & Hsnap & _).
  - reflexivity.
  - repeat split; reflexivity.
  - split.
    + intros Hin. apply Hcf in Hin. destruct Hin as (_ & _ & Hne).
      now apply Hne.
    + apply Hsnap. split; discriminate.
Defined.

(** C5.  Once the storage is open, [checkStage] is the marker scan of the
    specification: it probes increment/metadata, snapshot/metadata and
    snapshot/loadinfo in that order and nothing else, every marker found
    moves the stage one step along init, changefeed-created,
    snapshot-dumped, snapshot-loaded, and the scan ends at the first marker
    that is not found, returning the stage reached.  A probe that fails is
    returned as an error wrapping the cause, while a marker that is merely
    absent gives a nil error. *)
Theorem checkStage_scans_markers (w : World) (storagePath : string) :
  GetExternalStorage w storagePath = None ->
  let run := checkStage w storagePath in
  let scan := scanMarkers (FileExists w) markers StageInit in
  run.1 = scan.1 /\
  run.2 = EvGetExternalStorage storagePath :: scan.2 /\
  probed run `prefix_of`
    ["increment/metadata"; "snapshot/metadata"; "snapshot/loadinfo"] /\
  (forall name e,
     name ∈ probed run -> (FileExists w name).2 = Some e ->
     exists msg, run.1.2 = Some (ErrWrap e msg)) /\
  (forall name,
     name ∈ probed run -> FileExists w name = (false, None) ->
     run.1.2 = None).
Proof.
  intros Hopen run scan. subst run scan.
  unfold probed, checkStage, markers, scanMarkers, bind, call, ret.
  rewrite Hopen.
  destruct (FileExists w "increment/metadata") as [[|] [e1|]] eqn:H1;
    simpl; rewrite ?H1; simpl.
  2: destruct (FileExists w "snapshot/metadata") as [[|] [e2|]] eqn:H2;
    simpl; rewrite ?H2; simpl.
  3: destruct (FileExists w "snapshot/loadinfo") as [[|] [e3|]] eqn:H3;
    simpl; rewrite ?H3; simpl.
  all: split; [reflexivity|]; split; [reflexivity|].
  all: split;
    [ first [ by exists []
            | by exists ["snapshot/loadinfo"]
            | by exists ["snapshot/metadata"; "snapshot/loadinfo"] ] |].
  all: split; intros name; intros;
    repeat match goal with
    | H : _ ∈ _ :: _ |- _ => apply elem_of_cons in H; destruct H
    | H : _ ∈ [] |- _ => apply elem_of_nil in H; destruct H
    end; subst;
    repeat match goal with
    | H : FileExists ?v ?n = _, H' : context [FileExists ?v ?n] |- _ =>
        rewrite H in H'; simpl in H'
    end; simplify_eq; eauto.
Qed.

Lemma checkStage_scans_markers_witness :
  checkStage brokenWorld "s3://bucket/ws" =
    ((StageChangefeedCreated,
      Some (ErrWrap (ErrExternal "connection reset")
                    "Failed to check snapshot metadata")),
     [EvGetExternalStorage "s3://bucket/ws";
      EvFileExists "increment/metadata"; EvFileExists "snapshot/metadata"]).
Proof.
  destruct (checkStage_scans_markers brokenWorld "s3://bucket/ws")
    as (Hres & Htrace & _).
  - reflexivity.
  - destruct (checkStage brokenWorld "s3://bucket/ws") as [res trace].
    simpl in Hres, Htrace. rewrite Hres, Htrace. reflexivity.
Defined.

(** C8 as stated fails: restarted in mode full with the first two markers
    present, the run resumes at snapshot-dumped and loads the snapshot
    before it replays the increments. *)
Lemma Replicate_resume_runs_two_actions :
  (checkStage dumpedWorld "s3://bucket/ws").1 = (StageSnapshotDumped, None) /\
  executed (Replicate dumpedWorld "s3://bucket/ws" 60 RunModeFull) =
    [ActLoadSnapshot; ActLoadIncrement] /\
  executed (Replicate dumpedWorld "s3://bucket/ws" 60 RunModeFull) <>
    [ActLoadIncrement].
Proof. split; [reflexivity|]. split; [reflexivity | discriminate]. Qed.

(** C8, amended.  With increment/metadata and snapshot/metadata present and
    snapshot/loadinfo absent, [Replicate] resumes at snapshot-dumped and
    executes the snapshot load (unless the mode is incremental-only)
    followed by the incremental load (unless the mode is snapshot-only);
    neither the change-capture setup nor the snapshot dump runs. *)
Theorem Replicate_resume_after_dump (w : World) (storagePath : string)
    (cdcFlushInterval : Z) (mode : RunMode) :
  GetExternalStorage w storagePath = None ->
  FileExists w "increment/metadata" = (true, None) ->
  FileExists w "snapshot/metadata" = (true, None) ->
  FileExists w "snapshot/loadinfo" = (false, None) ->
  noFailure w storagePath ->
  (checkStage w storagePath).1 = (StageSnapshotDumped, None) /\
  (Replicate w storagePath cdcFlushInterval mode).1 = None /\
  executed (Replicate w storagePath cdcFlushInterval mode) =
    match mode with
    | RunModeFull | RunModeCloud => [ActLoadSnapshot; ActLoadIncrement]
    | RunModeSnapshotOnly => [ActLoadSnapshot]
    | RunModeIncrementalOnly => [ActLoadIncrement]
    end.
Proof.
  intros Hopen H1 H2 H3 Hok.
  assert (Hstage : (checkStage w storagePath).1 = (StageSnapshotDumped, None)).
  { unfold checkStage, bind, call, ret. rewrite Hopen, H1. simpl.
    rewrite H2. simpl. rewrite H3. reflexivity. }
  split; [exact Hstage|].
  destruct (Replicate_runs w storagePath cdcFlushInterval mode _ Hstage Hok)
    as [Hnil Hexec].
  split; [exact Hnil|]. rewrite Hexec. destruct mode; reflexivity.
Qed.

Lemma Replicate_resume_after_dump_witness :
  executed (Replicate dumpedWorld "s3://bucket/ws" 60 RunModeIncrementalOnly) =
    [ActLoadIncrement].
Proof.
  destruct (Replicate_resume_after_dump dumpedWorld "s3://bucket/ws" 60
              RunModeIncrementalOnly) as (_ & _ & Hexec);
    [reflexivity | reflexivity | reflexivity | reflexivity
    | repeat split; reflexivity | exact Hexec].
Defined.

End CmdFacts.

(** ** The merge statement *)

Section BigqueryFacts.

Import Bigquerysql.

(** A loop that appends one element per column builds [init ++ map f]. *)
Lemma fold_left_snoc {A B : Type} (f : A -> B) (l : list A) (init : list B) :
  fold_left (fun acc x => acc ++ [f x]) l init = init ++ (f <$> l).
Proof.
  revert init. induction l as [|x l IH]; intros init; simpl.
  - now rewrite app_nil_r.
  - rewrite IH. now rewrite <- app_assoc.
Qed.

Lemma updateStat_all (columns : list TableCol) :
  updateStat columns = (fun c => c +:+ " = S." +:+ c) <$> allNames columns.
Proof.
  unfold updateStat, allNames.
  rewrite (fold_left_snoc (fun col => Name col +:+ " = S." +:+ Name col)).
  simpl. now rewrite <- list_fmap_compose.
Qed.

Lemma insertStat_all (columns : list TableCol) :
  insertStat columns = allNames columns.
Proof. unfold insertStat, allNames. now rewrite (fold_left_snoc Name). Qed.

Lemma valuesStat_all (columns : list TableCol) :
  valuesStat columns = (fun c => "S." +:+ c) <$> allNames columns.
Proof.
  unfold valuesStat, allNames.
  rewrite (fold_left_snoc (fun col => "S." +:+ Name col)).
  simpl. now rewrite <- list_fmap_compose.
Qed.

Lemma pkColumn_onStat_from (columns : list TableCol) (pk on : list string) :
  fold_left
    (fun acc col =>
       let '(pkColumn, onStat) := acc in
       if bool_decide (IsPK col = "true") then
         (pkColumn ++ [Name col],
          onStat ++ ["T." +:+ Name col +:+ " = S." +:+ Name col])
       else acc)
    columns (pk, on) =
  (pk ++ pkNames columns,
   on ++ ((fun c => "T." +:+ c +:+ " = S." +:+ c) <$> pkNames columns)).
Proof.
  revert pk on. induction columns as [|col columns IH]; intros pk on; simpl.
  - unfold pkNames. simpl. now rewrite !app_nil_r.
  - unfold pkNames. rewrite filter_cons.
    case_bool_decide as Hpk; rewrite IH.
    + rewrite decide_True by exact Hpk. unfold pkNames. simpl.
      now rewrite <- !app_assoc.
    + rewrite decide_False by exact Hpk. reflexivity.
Qed.

Lemma pkColumn_onStat_keys (columns : list TableCol) :
  pkColumn_onStat columns =
  (pkNames columns,
   (fun c => "T." +:+ c +:+ " = S." +:+ c) <$> pkNames columns).
Proof. unfold pkColumn_onStat. now rewrite pkColumn_onStat_from. Qed.

(** The text [GenMergeInto] builds is the concrete syntax of the statement
    of the specification in which the update assigns every column. *)
Lemma GenMergeInto_renders (commitTs flag : string) (tableDef : TableDefinition)
    (datasetID tableID externalTableID : string) :
  GenMergeInto commitTs flag tableDef datasetID tableID externalTableID =
  renderMerge
    (specMerge commitTs flag
       (pkNames (Columns tableDef))
       (allNames (Columns tableDef))
       (allNames (Columns tableDef))
       ("`" +:+ datasetID +:+ "." +:+ tableID +:+ "`")
       ("`" +:+ datasetID +:+ "." +:+ externalTableID +:+ "`")).
Proof.
  unfold GenMergeInto. rewrite pkColumn_onStat_keys.
  rewrite updateStat_all, insertStat_all, valuesStat_all.
  unfold renderMerge, specMerge, mergeTemplate, mergeLines, renderDedup,
    renderClause, renderAction. simpl.
  rewrite !string_app_assoc. reflexivity.
Qed.

(** *** The window function *)

Section WindowFacts.

Context {R K : Type} `{EqDecision K} (key : R -> K) (ord : R -> Z).

Implicit Types (a b c : nat * R) (rows : list R).

Lemma outranks_irrefl a : ~ outranks key ord a a.
Proof. unfold outranks. intros [_ [Hlt | [_ Hlt]]]; lia. Qed.

Lemma outranks_trans a b c :
  outranks key ord a b -> outranks key ord b c -> outranks key ord a c.
Proof.
  unfold outranks. intros [Hab Hab'] [Hbc Hbc'].
  split; [congruence | lia].
Qed.

Lemma outranks_total a b :
  key a.2 = key b.2 -> a.1 <> b.1 ->
  outranks key ord a b \/ outranks key ord b a.
Proof.
  unfold outranks. intros Hkey Hidx.
  destruct (Z.lt_trichotomy (ord a.2) (ord b.2)) as [Hlt | [Heq | Hgt]].
  - right. split; [congruence | lia].
  - destruct (Nat.lt_trichotomy a.1 b.1) as [Hi | [Hi | Hi]]; [|lia|].
    + left. split; [congruence | lia].
    + right. split; [congruence | lia].
  - left. split; [congruence | lia].
Qed.

Lemma rowNumber_one rows b :
  rowNumber key ord rows b = 1 <->
  forall a, a ∈ imap pair rows -> ~ outranks key ord a b.
Proof.
  unfold rowNumber. split.
  - intros Hone a Hin Hout.
    assert (Hmem : a ∈ filter (fun a => outranks key ord a b) (imap pair rows))
      by (apply list_elem_of_filter; auto).
    destruct (filter _ _); [by apply elem_of_nil in Hmem | simpl in Hone; lia].
  - intros Hnone.
    destruct (filter (fun a => outranks key ord a b) (imap pair rows))
      as [|a rest] eqn:Hf; [reflexivity|].
    assert (Hmem : a ∈ filter (fun a => outranks key ord a b) (imap pair rows))
      by (rewrite Hf; left).
    apply list_elem_of_filter in Hmem as [Hout Hin].
    destruct (Hnone a Hin Hout).
Qed.

(** Whoever outranks [b] has a smaller row number. *)
Lemma rowNumber_lt rows a b :
  a ∈ imap pair rows -> outranks key ord a b ->
  rowNumber key ord rows a < rowNumber key ord rows b.
Proof.
  intros Hin Hout. unfold rowNumber. apply -> Nat.succ_lt_mono.
  rewrite <- (list_filter_filter_l (fun c => outranks key ord c a)
                                  (fun c => outranks key ord c b))
    by (intros c Hc; exact (outranks_trans c a b Hc Hout)).
  apply (length_filter_lt _ _ a).
  - apply list_elem_of_filter. auto.
  - apply outranks_irrefl.
Qed.

(** Every partition has a row numbered 1. *)
Lemma top_exists rows b :
  b ∈ imap pair rows ->
  exists a, a ∈ imap pair rows /\ key a.2 = key b.2 /\
            rowNumber key ord rows a = 1.
Proof.
  remember (rowNumber key ord rows b) as n eqn:Hn.
  revert b Hn. induction n as [n IH] using lt_wf_ind. intros b Hn Hin.
  destruct (filter (fun a => outranks key ord a b) (imap pair rows))
    as [|a rest] eqn:Hf.
  - exists b. split; [exact Hin|]. split; [reflexivity|].
    unfold rowNumber. now rewrite Hf.
  - assert (Hmem : a ∈ filter (fun a => outranks key ord a b) (imap pair rows))
      by (rewrite Hf; left).
    apply list_elem_of_filter in Hmem as [Hout Ha].
    destruct (IH (rowNumber key ord rows a)) with (b := a)
      as (top & Htop & Hkey & Hone); [|reflexivity|exact Ha|].
    + subst n. now apply rowNumber_lt.
    + exists top. split; [exact Htop|]. split; [|exact Hone].
      destruct Hout as [Hk _]. congruence.
Qed.

(** No partition has two. *)
Lemma top_unique rows a b :
  a ∈ imap pair rows -> b ∈ imap pair rows -> key a.2 = key b.2 ->
  rowNumber key ord rows a = 1 -> rowNumber key ord rows b = 1 ->
  a = b.
Proof.
  intros Ha Hb Hkey Hone_a Hone_b.
  destruct (decide (a.1 = b.1)) as [Hidx | Hidx].
  - apply elem_of_lookup_imap in Ha as (i & x & -> & Hx).
    apply elem_of_lookup_imap in Hb as (j & y & -> & Hy).
    simpl in Hidx. subst j. congruence.
  - destruct (outranks_total a b Hkey Hidx) as [Hout | Hout].
    + destruct (proj1 (rowNumber_one rows b) Hone_b a Ha Hout).
    + destruct (proj1 (rowNumber_one rows a) Hone_a b Hb Hout).
Qed.

Lemma topRows_elem rows r :
  r ∈ topRows key ord rows <->
  exists i, rows !! i = Some r /\ rowNumber key ord rows (i, r) = 1.
Proof.
  unfold topRows. rewrite list_elem_of_fmap. split.
  - intros ([i r'] & -> & Hin). apply list_elem_of_filter in Hin as [Hone Hin].
    apply elem_of_lookup_imap in Hin as (j & y & Heq & Hy).
    injection Heq as -> ->. exists j. auto.
  - intros (i & Hi & Hone). exists (i, r). split; [reflexivity|].
    apply list_elem_of_filter. split; [exact Hone|].
    now apply (elem_of_lookup_imap_2 pair).
Qed.

(** A kept row has the largest ordering key of its partition. *)
Lemma topRows_max rows r r' :
  r ∈ topRows key ord rows -> r' ∈ rows -> key r' = key r ->
  (ord r' <= ord r)%Z.
Proof.
  intros (i & Hi & Hone)%topRows_elem (j & Hj)%list_elem_of_lookup Hkey.
  destruct (Z.le_gt_cases (ord r') (ord r)) as [Hle | Hgt]; [exact Hle|].
  destruct (proj1 (rowNumber_one rows (i, r)) Hone (j, r')).
  - now apply (elem_of_lookup_imap_2 pair).
  - split; [exact Hkey | left; exact Hgt].
Qed.

End WindowFacts.

(** *** The synthesized statement *)

Lemma pkNames_nonempty (columns : list TableCol) :
  (exists col, col ∈ columns /\ IsPK col = "true") -> pkNames columns <> [].
Proof.
  intros (col & Hin & Hpk) Hnil. unfold pkNames in Hnil.
  apply fmap_nil_inv in Hnil.
  assert (Hmem : col ∈ filter (fun col => IsPK col = "true") columns)
    by (apply list_elem_of_filter; auto).
  rewrite Hnil in Hmem. by apply elem_of_nil in Hmem.
Qed.

Lemma selectClause_three_way (commitTs flag : string)
    (pk updated all : list string) (target source : string) (v : Value) :
  let stmt := specMerge commitTs flag pk updated all target source in
  selectClause (whenClauses stmt) true (Some v) =
    (if decide (v = VText "D") then Some DeleteRow
     else Some (UpdateSet updated)) /\
  selectClause (whenClauses stmt) false (Some v) =
    (if decide (v = VText "D") then None else Some (InsertValues all)).
Proof.
  unfold selectClause, specMerge, flagHolds. simpl.
  destruct (decide (v = VText "D")) as [Hd | Hd].
  - rewrite bool_decide_eq_false_2 by tauto.
    rewrite bool_decide_eq_true_2 by exact Hd. split; reflexivity.
  - rewrite (bool_decide_eq_true_2 (v <> VText "D")) by exact Hd.
    split; reflexivity.
Qed.

(** C1.  For a table definition with a primary-key column, the text of
    [GenMergeInto] is the concrete syntax of the statement [stmt] whose
    source numbers the raw rows by row_number over the partition by the
    primary-key columns, ordered descending by the commit-ts column, and
    keeps the rows numbered 1.  That selection keeps, in every partition
    of the log, exactly one position, and the row it keeps has the largest
    ordering key of its partition.  The statement joins on the primary-key
    columns and has exactly three clauses: a matched row updates unless
    its flag is 'D', in which case it deletes; an unmatched row inserts
    unless its flag is 'D', in which case no clause applies. *)
Theorem GenMergeInto_dedup_three_way (commitTs flag : string)
    (tableDef : TableDefinition) (datasetID tableID externalTableID : string) :
  (exists col, col ∈ Columns tableDef /\ IsPK col = "true") ->
  let pk := pkNames (Columns tableDef) in
  let all := allNames (Columns tableDef) in
  let stmt :=
    specMerge commitTs flag pk all all
      ("`" +:+ datasetID +:+ "." +:+ tableID +:+ "`")
      ("`" +:+ datasetID +:+ "." +:+ externalTableID +:+ "`") in
  GenMergeInto commitTs flag tableDef datasetID tableID externalTableID =
    renderMerge stmt /\
  pk <> [] /\
  (forall log r,
     r ∈ runDedup (usingSource stmt) log ->
     r ∈ log /\
     forall r', r' ∈ log -> partitionKey pk r' = partitionKey pk r ->
                (orderKey commitTs r' <= orderKey commitTs r)%Z) /\
  (forall log i r,
     log !! i = Some r ->
     exists j r0,
       log !! j = Some r0 /\ partitionKey pk r0 = partitionKey pk r /\
       keptAt (usingSource stmt) log j /\
       forall j' r1,
         log !! j' = Some r1 -> partitionKey pk r1 = partitionKey pk r ->
         keptAt (usingSource stmt) log j' -> j' = j) /\
  length (whenClauses stmt) = 3 /\
  (forall v,
     selectClause (whenClauses stmt) true (Some v) =
       (if decide (v = VText "D") then Some DeleteRow
        else Some (UpdateSet all)) /\
     selectClause (whenClauses stmt) false (Some v) =
       (if decide (v = VText "D") then None else Some (InsertValues all))).
Proof.
  intros Hpk pk all stmt.
  split; [apply GenMergeInto_renders|].
  split; [now apply pkNames_nonempty|].
  split; [|split; [|split; [reflexivity|]]].
  - intros log r Hin. unfold runDedup in Hin. simpl in Hin. split.
    + apply topRows_elem in Hin as (i & Hi & _).
      by apply list_elem_of_lookup_2 in Hi.
    + intros r' Hr' Hkey.
      exact (topRows_max _ _ log r r' Hin Hr' Hkey).
  - intros log i r Hi.
    destruct (top_exists (partitionKey pk) (orderKey commitTs) log (i, r))
      as ([j r0] & Hin & Hkey & Hone).
    { now apply (elem_of_lookup_imap_2 pair). }
    exists j, r0.
    assert (Hj : log !! j = Some r0).
    { apply elem_of_lookup_imap in Hin as (j' & y & Heq & Hy).
      now injection Heq as -> ->. }
    split; [exact Hj|]. split; [exact Hkey|]. split.
    + exists r0. split; [exact Hj | exact Hone].
    + intros j' r1 Hj' Hkey1 (r1' & Hj1 & Hone1).
      assert (r1' = r1) by congruence. subst r1'.
      assert (Heq : (j', r1) = (j, r0)); [|congruence].
      apply (top_unique (partitionKey pk) (orderKey commitTs) log).
      * now apply (elem_of_lookup_imap_2 pair).
      * exact Hin.
      * simpl in *. congruence.
      * exact Hone1.
      * exact Hone.
  - intros v. apply selectClause_three_way.
Qed.

Lemma GenMergeInto_dedup_three_way_witness :
  GenMergeInto "commit_ts" "flag" usersTable "ds" "users" "users_log" =
    renderMerge
      (specMerge "commit_ts" "flag" ["id"] ["id"; "name"] ["id"; "name"]
         "`ds.users`" "`ds.users_log`").
Proof.
  destruct (GenMergeInto_dedup_three_way "commit_ts" "flag" usersTable
              "ds" "users" "users_log") as [Htext _].
  - exists (column "id" "int" "false" "true"). split; [left | reflexivity].
  - exact Htext.
Defined.

(** The batch of the specification: of the two events for key 1 only the
    one with ordering key 7 survives, which deletes the row of the target;
    the event for key 2 inserts. *)
Example dedup_batch_of_the_specification :
  let stmt :=
    specMerge "commit_ts" "flag" ["id"] ["id"; "name"] ["id"; "name"]
      "`ds.users`" "`ds.users_log`" in
  let batch :=
    [logRow 1 "ann" 5 "U"; logRow 1 "ann" 7 "D"; logRow 2 "bob" 3 "I"] in
  GenMergeInto "commit_ts" "flag" usersTable "ds" "users" "users_log" =
    renderMerge stmt /\
  runDedup (usingSource stmt) batch =
    [logRow 1 "ann" 7 "D"; logRow 2 "bob" 3 "I"] /\
  runMerge stmt [userRow 1 "ann"] batch = [userRow 2 "bob"].
Proof.
  split; [apply (GenMergeInto_renders "commit_ts" "flag" usersTable)|].
  split; by vm_compute.
Qed.

(** C2 as stated fails: for the table keyed by [id], the SET list assigns
    the key column too, so it is not the list of the non-key columns. *)
Lemma updateStat_assigns_key_column :
  IsPK (column "id" "int" "false" "true") = "true" /\
  updateStat (Columns usersTable) = ["id = S.id"; "name = S.name"] /\
  "id = S.id" ∈ updateStat (Columns usersTable) /\
  updateStat (Columns usersTable) <>
    (fun c => c +:+ " = S." +:+ c) <$> nonKeyNames (Columns usersTable).
Proof.
  split; [reflexivity|]. split; [reflexivity|]. split; [left|].
  discriminate.
Qed.

(** C2, amended.  For every table definition, the UPDATE branch of the
    statement assigns every column of the table definition from S, in
    column order, the primary-key columns included: the SET list has one
    assignment per column, and it is what follows UPDATE SET on the
    fifteenth line of the text. *)
Theorem GenMergeInto_updates_every_column (commitTs flag : string)
    (tableDef : TableDefinition) (datasetID tableID externalTableID : string) :
  updateStat (Columns tableDef) =
    (fun col => Name col +:+ " = S." +:+ Name col) <$> Columns tableDef /\
  (forall col, col ∈ Columns tableDef ->
     Name col +:+ " = S." +:+ Name col ∈ updateStat (Columns tableDef)) /\
  exists lines,
    GenMergeInto commitTs flag tableDef datasetID tableID externalTableID =
      strings_Join lines LF /\
    lines !! 14 =
      Some (TAB +:+ "WHEN MATCHED AND S." +:+ flag +:+
            " != 'D' THEN UPDATE SET " +:+
            strings_Join (updateStat (Columns tableDef)) ", ").
Proof.
  assert (Hall : updateStat (Columns tableDef) =
    (fun col => Name col +:+ " = S." +:+ Name col) <$> Columns tableDef).
  { unfold updateStat.
    now rewrite (fold_left_snoc (fun col => Name col +:+ " = S." +:+ Name col)). }
  split; [exact Hall|]. split.
  - intros col Hin. rewrite Hall.
    apply (list_elem_of_fmap_2 (fun col => Name col +:+ " = S." +:+ Name col)).
    exact Hin.
  - unfold GenMergeInto, mergeTemplate.
    destruct (pkColumn_onStat (Columns tableDef)) as [pkColumn onStat].
    eexists. split; reflexivity.
Qed.




End BigqueryFacts.

(** ** The DDL synthesizer *)

Section DatabricksFacts.

Import Databrickssql.

Variable GetColumnDiff :
  list TableCol -> list TableCol -> list ColumnDiff * option error.
Variable GetDatabricksTypeString : TableCol -> string * option error.

Lemma appendDDL_statement (ddls : list string) (ch : Ascii.ascii) (ddl : string) :
  appendDDL ddls (String ch ddl) = ddls ++ [String ch ddl +:+ ";"].
Proof. unfold appendDDL. now rewrite bool_decide_eq_true_2. Qed.

Lemma appendDDL_alter (ddls : list string) (rest : string) :
  appendDDL ddls ("ALTER TABLE " +:+ rest) =
    ddls ++ [("ALTER TABLE " +:+ rest) +:+ ";"].
Proof. exact (appendDDL_statement ddls _ _). Qed.

Lemma appendDDL_empty (ddls : list string) : appendDDL ddls "" = ddls.
Proof. reflexivity. Qed.

Lemma GetDatabricksColumnString_ok (column : TableCol) :
  (GetDatabricksTypeString column).2 = None ->
  (GetDatabricksColumnString GetDatabricksTypeString column).2 = None.
Proof.
  unfold GetDatabricksColumnString.
  destruct (GetDatabricksTypeString column) as [typeStr err]. simpl.
  intros ->. reflexivity.
Qed.

(** A diff without Modify whose items can be rendered gives one statement
    per Add, Drop and Rename item, appended in order. *)
Lemma renderItems_statements (table : string) (columnDiff : list ColumnDiff)
    (ddls : list string) :
  Forall wellFormed columnDiff ->
  Forall (renderable GetDatabricksTypeString) columnDiff ->
  Forall (fun item => Action item <> MODIFY_COLUMN) columnDiff ->
  renderItems GetDatabricksTypeString table columnDiff ddls =
    Returns (ddls ++ omap (statementOf GetDatabricksTypeString table) columnDiff, None).
Proof.
  revert ddls.
  induction columnDiff as [|item rest IH]; intros ddls Hwf Hrend Hmod.
  - simpl. now rewrite app_nil_r.
  - apply Forall_cons in Hwf as [Hwf Hwfs].
    apply Forall_cons in Hrend as [Hrend Hrends].
    apply Forall_cons in Hmod as [Hmod Hmods].
    unfold wellFormed, Databrickssql.renderable in Hwf, Hrend.
    simpl. unfold Databrickssql.statementOf.
    destruct (Action item) eqn:Hact.
    + rewrite appendDDL_empty, IH by assumption.
      now destruct (Before item), (After item).
    + destruct Hwf as [after Hafter]. rewrite Hafter in *.
      pose proof (GetDatabricksColumnString_ok after Hrend) as Hok.
      destruct (GetDatabricksColumnString GetDatabricksTypeString after)
        as [colStr err].
      simpl in Hok. subst err. simpl.
      change (("" +:+ "ALTER TABLE " +:+ table +:+ " ADD COLUMN ") +:+ colStr)
        with ("ALTER TABLE " +:+ ((table +:+ " ADD COLUMN ") +:+ colStr)).
      rewrite appendDDL_alter, IH by assumption.
      rewrite <- app_assoc. simpl. do 3 f_equal.
      destruct (Before item); simpl; now rewrite !string_app_assoc.
    + destruct Hwf as [before Hbefore]. rewrite Hbefore. simpl.
      change ("" +:+ "ALTER TABLE " +:+ table +:+ " DROP COLUMN " +:+ Name before)
        with ("ALTER TABLE " +:+ table +:+ " DROP COLUMN " +:+ Name before).
      rewrite appendDDL_alter, IH by assumption.
      rewrite <- app_assoc. simpl. do 3 f_equal.
      now rewrite !string_app_assoc.
    + congruence.
    + destruct Hwf as [[before Hbefore] [after Hafter]].
      rewrite Hbefore, Hafter. simpl.
      change ("" +:+ "ALTER TABLE " +:+ table +:+ " RENAME COLUMN " +:+
              Name before +:+ " TO " +:+ Name after)
        with ("ALTER TABLE " +:+ table +:+ " RENAME COLUMN " +:+
              Name before +:+ " TO " +:+ Name after).
      rewrite appendDDL_alter, IH by assumption.
      rewrite <- app_assoc. simpl. do 3 f_equal.
      now rewrite !string_app_assoc.
Qed.

(** A well-formed diff with a Modify item is refused, with the error of
    the Modify case unless an added column could not be rendered first. *)
Lemma renderItems_modify (table : string) (columnDiff : list ColumnDiff)
    (ddls : list string) :
  Forall wellFormed columnDiff ->
  Exists (fun item => Action item = MODIFY_COLUMN) columnDiff ->
  exists e,
    renderItems GetDatabricksTypeString table columnDiff ddls =
      Returns ([], Some e) /\
    (Forall (renderable GetDatabricksTypeString) columnDiff ->
     e = ErrNew
           "Received modify column ddl, which is not supported by Databricks yet").
Proof.
  revert ddls.
  induction columnDiff as [|item rest IH]; intros ddls Hwf Hmod.
  - by apply Exists_nil in Hmod.
  - apply Forall_cons in Hwf as [Hwf Hwfs].
    assert (Htail : Action item <> MODIFY_COLUMN ->
              Exists (fun item => Action item = MODIFY_COLUMN) rest).
    { intros Hne. apply Exists_cons in Hmod as [Hhd | Htl]; [congruence | exact Htl]. }
    unfold wellFormed in Hwf. simpl.
    destruct (Action item) eqn:Hact.
    + destruct (IH (appendDDL ddls "") Hwfs) as (e & He & Hwhich);
        [apply Htail; discriminate|].
      exists e. split; [exact He|].
      intros Hrend. apply Forall_cons in Hrend as [_ Hrends]. auto.
    + destruct Hwf as [after Hafter]. rewrite Hafter.
      unfold GetDatabricksColumnString.
      destruct (GetDatabricksTypeString after) as [typeStr [typeErr|]] eqn:Htype;
        simpl.
      * eexists. split; [reflexivity|].
        intros Hrend. apply Forall_cons in Hrend as [Hrend _].
        unfold renderable in Hrend. rewrite Hact, Hafter, Htype in Hrend.
        discriminate.
      * match goal with
        | |- context [renderItems _ _ _ ?acc] =>
            destruct (IH acc Hwfs) as (e & He & Hwhich);
              [apply Htail; discriminate|]
        end.
        exists e. split; [exact He|].
        intros Hrend. apply Forall_cons in Hrend as [_ Hrends]. auto.
    + destruct Hwf as [before Hbefore]. rewrite Hbefore.
      match goal with
      | |- context [renderItems _ _ _ ?acc] =>
          destruct (IH acc Hwfs) as (e & He & Hwhich);
            [apply Htail; discriminate|]
      end.
      exists e. split; [exact He|].
      intros Hrend. apply Forall_cons in Hrend as [_ Hrends]. auto.
    + eexists. split; [reflexivity|]. reflexivity.
    + destruct Hwf as [[before Hbefore] [after Hafter]].
      rewrite Hbefore, Hafter.
      match goal with
      | |- context [renderItems _ _ _ ?acc] =>
          destruct (IH acc Hwfs) as (e & He & Hwhich);
            [apply Htail; discriminate|]
      end.
      exists e. split; [exact He|].
      intros Hrend. apply Forall_cons in Hrend as [_ Hrends]. auto.
Qed.

Lemma statements_count (table : string) (columnDiff : list ColumnDiff) :
  Forall wellFormed columnDiff ->
  Forall (fun item => Action item <> MODIFY_COLUMN) columnDiff ->
  length (omap (statementOf GetDatabricksTypeString table) columnDiff) =
    length (filter producesDDL columnDiff).
Proof.
  induction columnDiff as [|item rest IH]; intros Hwf Hmod; [reflexivity|].
  apply Forall_cons in Hwf as [Hwf Hwfs].
  apply Forall_cons in Hmod as [Hmod Hmods].
  specialize (IH Hwfs Hmods).
  rewrite filter_cons.
  change (omap (statementOf GetDatabricksTypeString table) (item :: rest))
    with (match statementOf GetDatabricksTypeString table item with
          | Some ddl => ddl :: omap (statementOf GetDatabricksTypeString table) rest
          | None => omap (statementOf GetDatabricksTypeString table) rest
          end).
  unfold wellFormed in Hwf. unfold statementOf at 1.
  destruct (Action item) eqn:Hact.
  - rewrite decide_False
      by (unfold producesDDL; rewrite Hact; intros [? | [? | ?]]; discriminate).
    now destruct (Before item), (After item).
  - rewrite decide_True by (unfold producesDDL; rewrite Hact; tauto).
    destruct Hwf as [after ->]. simpl. rewrite IH. now destruct (Before item).
  - rewrite decide_True by (unfold producesDDL; rewrite Hact; tauto).
    destruct Hwf as [before ->]. simpl. now rewrite IH.
  - congruence.
  - rewrite decide_True by (unfold producesDDL; rewrite Hact; tauto).
    destruct Hwf as [[before ->] [after ->]]. simpl. now rewrite IH.
Qed.

(** C6.  When the change type is truncate, drop-table or drop-schema,
    whatever the column lists and whatever the diff engine and the type
    renderer would answer, [GenDDLViaColumnsDiff] returns exactly one
    statement (TRUNCATE TABLE, DROP TABLE, DROP SCHEMA ... CASCADE) with a
    nil error and makes no call to the column diff. *)
Theorem GenDDLViaColumnsDiff_table_level (prevColumns : list TableCol)
    (curTableDef : TableDefinition) :
  Type' curTableDef = ActionTruncateTable \/
  Type' curTableDef = ActionDropTable \/
  Type' curTableDef = ActionDropSchema ->
  GenDDLViaColumnsDiff GetColumnDiff GetDatabricksTypeString
      prevColumns curTableDef =
    (Returns
       ([match Type' curTableDef with
         | ActionTruncateTable => "TRUNCATE TABLE " +:+ Table curTableDef
         | ActionDropTable => "DROP TABLE " +:+ Table curTableDef
         | _ => "DROP SCHEMA " +:+ Schema curTableDef +:+ " CASCADE"
         end],
        None),
     []).
Proof.
  unfold GenDDLViaColumnsDiff. intros [-> | [-> | ->]]; reflexivity.
Qed.

(** The rejections the code makes: [GenDDLViaColumnsDiff] returns an error
    and no statement when the change type is create-table, create-schema or
    the rename of several tables ([ActionRenameTables]), and, when the
    column diff is computed, whenever the well-formed diff contains a
    Modify item.  The error is one made by errors.New, unless an added
    column that precedes the Modify item has a type the renderer refuses,
    in which case it is that refusal. *)
Theorem GenDDLViaColumnsDiff_rejects (prevColumns : list TableCol)
    (curTableDef : TableDefinition) :
  let columnDiff := (GetColumnDiff prevColumns (Columns curTableDef)).1 in
  let tableLevel :=
    Type' curTableDef = ActionCreateTable \/
    Type' curTableDef = ActionCreateSchema \/
    Type' curTableDef = ActionRenameTables in
  tableLevel \/
  (Type' curTableDef = ActionOther /\
   (GetColumnDiff prevColumns (Columns curTableDef)).2 = None /\
   Forall wellFormed columnDiff /\
   Exists (fun item => Action item = MODIFY_COLUMN) columnDiff) ->
  exists e,
    (GenDDLViaColumnsDiff GetColumnDiff GetDatabricksTypeString
       prevColumns curTableDef).1 = Returns ([], Some e) /\
    (tableLevel \/ Forall (renderable GetDatabricksTypeString) columnDiff ->
     exists msg, e = ErrNew msg).
Proof.
  intros columnDiff tableLevel. subst columnDiff tableLevel.
  unfold GenDDLViaColumnsDiff.
  intros [[Hty | [Hty | Hty]] | (Hty & Herr & Hwf & Hmod)]; rewrite Hty;
    simpl; try (eexists; split; [reflexivity | intros _; eexists; reflexivity]).
  destruct (GetColumnDiff prevColumns (Columns curTableDef)) as [columnDiff err].
  simpl in *. subst err. simpl.
  destruct (renderItems_modify (Table curTableDef) columnDiff [] Hwf Hmod)
    as (e & He & Hwhich).
  exists e. split; [exact He|].
  intros [[? | [? | ?]] | Hrend]; try discriminate.
  eexists. exact (Hwhich Hrend).
Qed.

(** C9, amended.  For a well-formed column diff without a Modify item
    whose added columns have renderable types, [GenDDLViaColumnsDiff]
    returns, with a nil error, one statement per Add, Drop and Rename item,
    in the order of the diff; Unchanged items give no statement, and every
    returned statement is the statement of an item that is not
    Unchanged. *)
Theorem GenDDLViaColumnsDiff_statements (prevColumns : list TableCol)
    (curTableDef : TableDefinition) (columnDiff : list ColumnDiff) :
  Type' curTableDef = ActionOther ->
  GetColumnDiff prevColumns (Columns curTableDef) = (columnDiff, None) ->
  Forall wellFormed columnDiff ->
  Forall (renderable GetDatabricksTypeString) columnDiff ->
  Forall (fun item => Action item <> MODIFY_COLUMN) columnDiff ->
  let table := Table curTableDef in
  exists ddls,
    (GenDDLViaColumnsDiff GetColumnDiff GetDatabricksTypeString
       prevColumns curTableDef).1 = Returns (ddls, None) /\
    ddls = omap (statementOf GetDatabricksTypeString table) columnDiff /\
    length ddls = length (filter producesDDL columnDiff) /\
    (forall item, Action item = UNCHANGE ->
       statementOf GetDatabricksTypeString table item = None) /\
    (forall ddl, ddl ∈ ddls ->
       exists item, item ∈ columnDiff /\ Action item <> UNCHANGE /\
         statementOf GetDatabricksTypeString table item = Some ddl).
Proof.
  intros Hty Hdiff Hwf Hrend Hmod table.
  exists (omap (statementOf GetDatabricksTypeString table) columnDiff).
  split; [|split; [reflexivity|split; [|split]]].
  - unfold GenDDLViaColumnsDiff. rewrite Hty, Hdiff. simpl.
    now rewrite renderItems_statements.
  - now apply statements_count.
  - intros item Hact. unfold statementOf. rewrite Hact.
    now destruct (Before item), (After item).
  - intros ddl Hin. apply list_elem_of_omap in Hin as (item & Hitem & Hstmt).
    exists item. split; [exact Hitem|]. split; [|exact Hstmt].
    intros Hact. unfold statementOf in Hstmt. rewrite Hact in Hstmt.
    destruct (Before item), (After item); discriminate.
Qed.

End DatabricksFacts.

Section DatabricksSamples.

Import Databrickssql.

Lemma GenDDLViaColumnsDiff_table_level_witness :
  GenDDLViaColumnsDiff (answering dropAndModify) sampleTypeString
      ordersBefore (ordersTable ActionDropSchema) =
    (Returns (["DROP SCHEMA shop CASCADE"], None), []).
Proof.
  apply (GenDDLViaColumnsDiff_table_level (answering dropAndModify)
           sampleTypeString ordersBefore (ordersTable ActionDropSchema)).
  right. right. reflexivity.
Defined.

Lemma GenDDLViaColumnsDiff_rejects_witness :
  exists e,
    (GenDDLViaColumnsDiff (answering dropAndModify) sampleTypeString
       ordersBefore (ordersTable ActionOther)).1 = Returns ([], Some e).
Proof.
  destruct (GenDDLViaColumnsDiff_rejects (answering dropAndModify)
              sampleTypeString ordersBefore (ordersTable ActionOther))
    as (e & He & _).
  - right. split; [reflexivity|]. split; [reflexivity|].
    split.
    + repeat constructor. by eexists.
    + right. left. reflexivity.
  - exists e. exact He.
Defined.

(** C7.  The claim asks for an error whenever the change type is
    rename-table.  For the rename of one table the code returns no error:
    its type is not the constant the code compares with, the column diff is
    computed, and with the columns unchanged the result is an empty list
    of statements and a nil error. *)
Theorem GenDDLViaColumnsDiff_single_rename_not_rejected :
  GenDDLViaColumnsDiff (answering nothingChanged) sampleTypeString
      (Columns (ordersTable ActionRenameTable))
      (ordersTable ActionRenameTable) =
    (Returns ([], None),
     [(Columns (ordersTable ActionRenameTable),
       Columns (ordersTable ActionRenameTable))]).
Proof. reflexivity. Qed.

(** C9 as stated fails: the diff that drops [memo] and modifies [id] has
    one Drop item, yet no statement is returned. *)
Lemma GenDDLViaColumnsDiff_modify_returns_nothing :
  (GenDDLViaColumnsDiff (answering dropAndModify) sampleTypeString
     ordersBefore (ordersTable ActionOther)).1 =
    Returns
      ([], Some (ErrNew
                   "Received modify column ddl, which is not supported by Databricks yet")) /\
  length (filter producesDDL dropAndModify) = 1 /\
  length (@nil string) <> length (filter producesDDL dropAndModify).
Proof. split; [reflexivity|]. split; [reflexivity | discriminate]. Qed.

Lemma GenDDLViaColumnsDiff_statements_witness :
  (GenDDLViaColumnsDiff (answering addDropRename) sampleTypeString
     ordersBefore (ordersTable ActionOther)).1 =
    Returns
      (["ALTER TABLE orders ADD COLUMN note STRING;";
        "ALTER TABLE orders DROP COLUMN memo;";
        "ALTER TABLE orders RENAME COLUMN qty TO quantity;"],
       None).
Proof.
  destruct (GenDDLViaColumnsDiff_statements (answering addDropRename)
              sampleTypeString ordersBefore (ordersTable ActionOther)
              addDropRename)
    as (ddls & Hres & Hddls & _).
  - reflexivity.
  - reflexivity.
  - repeat constructor; by eexists.
  - repeat constructor.
  - repeat constructor; discriminate.
  - rewrite Hres, Hddls. reflexivity.
Defined.

End DatabricksSamples.

(** * Further properties of the code *)

(** ** The orchestrator: failures and arguments *)

Section CmdFailures.

Import Cmd.

Ltac unfold_switch :=
  unfold switchStage, caseInit, caseChangefeedCreated, caseSnapshotDumped,
    caseSnapshotLoaded, bind, call, ret.

(** Case analysis on the answers of the collaborators a goal mentions. *)
Ltac case_answers w :=
  repeat
    (match goal with
     | |- context [NewCDCConnector w] => destruct (NewCDCConnector w)
     | |- context [CreateChangefeed w] => destruct (CreateChangefeed w)
     | |- context [RunDump w] => destruct (RunDump w)
     | |- context [StartReplicateSnapshot w] =>
         destruct (StartReplicateSnapshot w)
     | |- context [StartReplicateIncrement w] =>
         destruct (StartReplicateIncrement w)
     end; simpl).

(** [checkStage] only opens the storage and probes markers. *)
Lemma checkStage_only_probes (w : World) (storagePath : string) :
  Forall (fun e => match e with
                   | EvGetExternalStorage path => path = storagePath
                   | EvFileExists _ => True
                   | _ => False
                   end)
         (checkStage w storagePath).2.
Proof.
  unfold checkStage, bind, call, ret.
  destruct (GetExternalStorage w storagePath); [by repeat constructor|].
  destruct (FileExists w "increment/metadata") as [[|] [e1|]];
    try by repeat constructor.
  destruct (FileExists w "snapshot/metadata") as [[|] [e2|]];
    try by repeat constructor.
  destruct (FileExists w "snapshot/loadinfo") as [[|] [e3|]];
    by repeat constructor.
Qed.

(** X1.  The error [Replicate] returns is the error of the set-up when the
    set-up fails (markers, start position in mode full, locations), and
    otherwise the error of the first stage action that fails among the
    actions the mode lets through from the entry stage on, wrapped as that
    action wraps it; it is nil when none of them fails. *)
Theorem Replicate_error_result (w : World) (storagePath : string)
    (cdcFlushInterval : Z) (mode : RunMode) :
  (Replicate w storagePath cdcFlushInterval mode).1 =
    match setupFailure w storagePath mode with
    | Some e => Some e
    | None =>
        firstFailure w (gatedActions mode (checkStage w storagePath).1.1)
    end.
Proof.
  unfold Replicate, setupFailure, firstFailure, gatedActions, bind.
  destruct (checkStage w storagePath) as [[stage [err|]] tr0]; simpl;
    [reflexivity|].
  destruct (genURI w storagePath) as [[snapshotURI incrementURI] [errURI|]],
    (GetCurrentTSO w) as [tso [errTSO|]]; simpl;
    try (destruct mode; reflexivity).
  all: unfold actionFailure; unfold_switch.
  all: destruct mode, stage; simpl; case_answers w; reflexivity.
Qed.

(** X2.  When the set-up fails, [Replicate] returns that error without
    attempting any stage action and without building the change-capture
    connector. *)
Theorem Replicate_setup_failure_runs_nothing (w : World) (storagePath : string)
    (cdcFlushInterval : Z) (mode : RunMode) (e : error) :
  setupFailure w storagePath mode = Some e ->
  (Replicate w storagePath cdcFlushInterval mode).1 = Some e /\
  executed (Replicate w storagePath cdcFlushInterval mode) = [] /\
  forall startTSO incrementURI,
    EvNewCDCConnector startTSO incrementURI ∉
      (Replicate w storagePath cdcFlushInterval mode).2.
Proof.
  intros Hfail.
  split; [rewrite Replicate_error_result; now rewrite Hfail|].
  pose proof (checkStage_executes_nothing w storagePath) as Hquiet.
  pose proof (checkStage_only_probes w storagePath) as Hprobes.
  revert Hfail Hquiet Hprobes.
  unfold Replicate, setupFailure, executed, bind.
  destruct (checkStage w storagePath) as [[stage [err|]] tr0]; simpl;
    intros Hfail Hquiet Hprobes.
  - rewrite app_nil_r. split; [exact Hquiet|].
    intros startTSO incrementURI Hin.
    rewrite Forall_forall in Hprobes. exact (Hprobes _ Hin).
  - assert (Hno : forall startTSO incrementURI tail,
              EvNewCDCConnector startTSO incrementURI ∉ tail ->
              EvNewCDCConnector startTSO incrementURI ∉ tr0 ++ tail).
    { intros startTSO incrementURI tail Htail Hin.
      apply elem_of_app in Hin as [Hin | Hin]; [|exact (Htail Hin)].
      rewrite Forall_forall in Hprobes. exact (Hprobes _ Hin). }
    destruct (genURI w storagePath) as [[snapshotURI incrementURI] [errURI|]],
      (GetCurrentTSO w) as [tso [errTSO|]];
      simpl in *; destruct mode; try discriminate; simpl;
      rewrite ?omap_app, ?Hquiet; (split; [reflexivity|]);
      intros; apply Hno; rewrite ?elem_of_cons, ?elem_of_nil;
      intuition discriminate.
Qed.

Lemma Replicate_setup_failure_runs_nothing_witness :
  (Replicate closedWorld "s3://bucket/ws" 60 RunModeFull).1 =
    Some (ErrTrace (ErrExternal "access denied")) /\
  executed (Replicate closedWorld "s3://bucket/ws" 60 RunModeFull) = [].
Proof.
  destruct (Replicate_setup_failure_runs_nothing closedWorld "s3://bucket/ws"
              60 RunModeFull (ErrTrace (ErrExternal "access denied")))
    as (Herr & Hnone & _); [reflexivity|].
  split; [exact Herr | exact Hnone].
Defined.

(** X3.  When the set-up succeeds, the stage actions [Replicate] attempts
    are an initial part of the actions the mode lets through from the entry
    stage on, in that order, and a nil result means that all of them were
    attempted: a failure ends the run, nothing is skipped and nothing is
    retried. *)
Theorem Replicate_attempts_prefix (w : World) (storagePath : string)
    (cdcFlushInterval : Z) (mode : RunMode) :
  setupFailure w storagePath mode = None ->
  let run := Replicate w storagePath cdcFlushInterval mode in
  let reachable := gatedActions mode (checkStage w storagePath).1.1 in
  executed run `prefix_of` reachable /\
  (run.1 = None -> executed run = reachable).
Proof.
  intros Hsetup run reachable. subst run reachable.
  pose proof (checkStage_executes_nothing w storagePath) as Hquiet.
  revert Hsetup Hquiet.
  unfold Replicate, setupFailure, gatedActions, executed, bind.
  destruct (checkStage w storagePath) as [[stage [err|]] tr0]; simpl;
    [discriminate|].
  intros Hsetup Hquiet.
  destruct (genURI w storagePath) as [[snapshotURI incrementURI] [errURI|]],
    (GetCurrentTSO w) as [tso [errTSO|]];
    simpl in *; try (destruct mode; discriminate).
  all: unfold_switch.
  all: destruct mode, stage; simpl; case_answers w;
       rewrite ?omap_app, ?Hquiet; simpl;
       (split; [by eexists | try discriminate; reflexivity]).
Qed.

Lemma Replicate_attempts_prefix_witness :
  executed (Replicate dumpFailsWorld "s3://bucket/ws" 60 RunModeFull)
    `prefix_of`
    [ActCreateChangefeed; ActDumpSnapshot; ActLoadSnapshot; ActLoadIncrement].
Proof.
  destruct (Replicate_attempts_prefix dumpFailsWorld "s3://bucket/ws" 60
              RunModeFull) as [Hprefix _]; [reflexivity|].
  exact Hprefix.
Defined.

(** X4.  Every call [Replicate] makes carries the arguments derived for
    it: the snapshot dump and the snapshot load get the snapshot location,
    the change-capture connector and the incremental load get the increment
    location, the start position is the current TSO in mode full and 0 in
    every other mode, and the incremental load polls at a fifth of the
    flush interval. *)
Theorem Replicate_hands_on_arguments (w : World) (storagePath : string)
    (cdcFlushInterval : Z) (mode : RunMode) :
  Forall (handedOn w storagePath cdcFlushInterval mode)
         (Replicate w storagePath cdcFlushInterval mode).2.
Proof.
  pose proof (checkStage_only_probes w storagePath) as Hprobes.
  assert (Hon : forall tr0,
            Forall (fun e => match e with
                             | EvGetExternalStorage path => path = storagePath
                             | EvFileExists _ => True
                             | _ => False
                             end) tr0 ->
            Forall (handedOn w storagePath cdcFlushInterval mode) tr0).
  { intros tr0 Htr0. eapply Forall_impl; [exact Htr0|].
    intros [] H; simpl in *; auto; contradiction. }
  revert Hprobes Hon. unfold Replicate, bind, handedOn, startPosition.
  destruct (checkStage w storagePath) as [[stage [err|]] tr0]; simpl;
    intros Hprobes Hon.
  { rewrite app_nil_r. auto. }
  destruct (genURI w storagePath) as [[snapshotURI incrementURI] [errURI|]],
    (GetCurrentTSO w) as [tso [errTSO|]]; simpl in *.
  all: unfold_switch.
  all: destruct mode, stage; simpl; case_answers w;
       (apply Forall_app; split; [auto | repeat constructor]).
Qed.

(** X5.  A start position is requested from TiDB exactly when the markers
    were read without error and the mode is full. *)
Theorem Replicate_requests_position_iff (w : World) (storagePath : string)
    (cdcFlushInterval : Z) (mode : RunMode) :
  EvGetCurrentTSO ∈ (Replicate w storagePath cdcFlushInterval mode).2 <->
  (checkStage w storagePath).1.2 = None /\ mode = RunModeFull.
Proof.
  pose proof (checkStage_only_probes w storagePath) as Hprobes.
  revert Hprobes. unfold Replicate, bind.
  destruct (checkStage w storagePath) as [[stage [err|]] tr0]; simpl;
    intros Hprobes.
  - rewrite app_nil_r. split; [|intros [? _]; discriminate].
    intros Hin. rewrite Forall_forall in Hprobes. destruct (Hprobes _ Hin).
  - assert (Hnot : EvGetCurrentTSO ∉ tr0).
    { intros Hin. rewrite Forall_forall in Hprobes. exact (Hprobes _ Hin). }
    destruct (genURI w storagePath) as [[snapshotURI incrementURI] [errURI|]],
      (GetCurrentTSO w) as [tso [errTSO|]]; simpl.
    all: unfold_switch.
    all: destruct mode, stage; simpl; case_answers w;
         rewrite elem_of_app, ?elem_of_cons, ?elem_of_nil;
         (split; [intros [? | ?]; [contradiction | intuition discriminate]
                 | intros [_ ?]; try discriminate; right; tauto]).
Qed.

(** X6.  [checkStage] returns an error it did not wrap, and probes nothing,
    when the storage cannot be opened.  When it can, the number of markers
    probed is one more than the number of steps the returned stage lies
    beyond init, but never more than three, and a stage returned together
    with an error is never snapshot-loaded. *)
Theorem checkStage_probe_count (w : World) (storagePath : string) :
  match GetExternalStorage w storagePath with
  | Some e =>
      checkStage w storagePath =
        ((StageInit, Some e), [EvGetExternalStorage storagePath])
  | None =>
      let run := checkStage w storagePath in
      length (probed run) = Nat.min 3 (S (stageIndex run.1.1)) /\
      (run.1.2 <> None -> run.1.1 <> StageSnapshotLoaded)
  end.
Proof.
  unfold probed, checkStage, bind, call, ret.
  destruct (GetExternalStorage w storagePath); [reflexivity|].
  destruct (FileExists w "increment/metadata") as [[|] [e1|]];
    try (split; [reflexivity | discriminate]).
  destruct (FileExists w "snapshot/metadata") as [[|] [e2|]];
    try (split; [reflexivity | discriminate]).
  destruct (FileExists w "snapshot/loadinfo") as [[|] [e3|]]; simpl;
    (split; [reflexivity | try discriminate; congruence]).
Qed.

(** X7.  [genURI] returns a nil error exactly when both joins and both
    parses succeed, and then the two locations are the parsed snapshot and
    increment paths.  Whenever it returns an error the increment location
    is nil. *)
Theorem genURI_result (w : World) (storagePath : string) :
  let snap := JoinPath w storagePath "snapshot" in
  let incr := JoinPath w storagePath "increment" in
  ((genURI w storagePath).2 = None <->
   snap.2 = None /\ (Parse w snap.1).2 = None /\
   incr.2 = None /\ (Parse w incr.1).2 = None) /\
  ((genURI w storagePath).2 = None ->
   genURI w storagePath = ((Parse w snap.1).1, (Parse w incr.1).1, None)) /\
  ((genURI w storagePath).2 <> None -> (genURI w storagePath).1.2 = None).
Proof.
  unfold genURI.
  destruct (JoinPath w storagePath "snapshot") as [snapPath [e1|]]; simpl;
    [intuition congruence|].
  destruct (Parse w snapPath) as [snapshotURI [e2|]]; simpl;
    [intuition congruence|].
  destruct (JoinPath w storagePath "increment") as [increPath [e3|]]; simpl;
    [intuition congruence|].
  destruct (Parse w increPath) as [incrementURI [e4|]]; simpl;
    intuition congruence.
Qed.

End CmdFailures.

Section CredentialFacts.

Import Cmd.

Variable url_Parse : string -> option ParsedURL * option error.
Variable envCredentials_Get : Credentials * option error.

(** X8.  [resolveAWSCredential] hands back credentials only for a storage
    path that parses and has scheme s3, and then they are the credentials
    of the environment together with the error of reading them; every other
    result that is not a panic carries an error, which for a path of
    another scheme is "Not a s3 storage". *)
Theorem resolveAWSCredential_s3_only (storagePath : string)
    (cred : option Credentials) (err : option error) :
  resolveAWSCredential url_Parse envCredentials_Get storagePath =
    Returns (cred, err) ->
  match cred with
  | Some credValue =>
      exists uri,
        url_Parse storagePath = (Some uri, None) /\ Scheme uri = "s3" /\
        envCredentials_Get = (credValue, err)
  | None =>
      (exists e,
         (url_Parse storagePath).2 = Some e /\ err = Some (AddStack e)) \/
      (exists uri,
         url_Parse storagePath = (Some uri, None) /\ Scheme uri <> "s3" /\
         err = Some (ErrNew "Not a s3 storage"))
  end.
Proof.
  unfold resolveAWSCredential.
  destruct (url_Parse storagePath) as [uri [parseErr|]]; simpl.
  - intros [= <- <-]. left. eauto.
  - destruct uri as [uri|]; [|discriminate].
    case_bool_decide as Hscheme.
    + destruct envCredentials_Get as [credValue getErr].
      intros [= <- <-]. eauto.
    + intros [= <- <-]. right. eauto.
Qed.

End CredentialFacts.

Lemma resolveAWSCredential_s3_only_witness :
  exists uri,
    Cmd.sampleParse "s3://bucket/ws" = (Some uri, None) /\
    Cmd.Scheme uri = "s3".
Proof.
  destruct (resolveAWSCredential_s3_only Cmd.sampleParse
              (Cmd.sampleCredentials, None) "s3://bucket/ws"
              (Some Cmd.sampleCredentials) None)
    as (uri & Hparse & Hscheme & _); [reflexivity|].
  exists uri. split; [exact Hparse | exact Hscheme].
Defined.

(** ** BigQuery: table creation and the INSERT branch *)

Section BigqueryExtras.

Import Bigquerysql.

Variable GetBigQueryColumnString : TableCol -> bool -> string * option error.

(** The first loop stops at the first column that cannot be rendered and
    otherwise appends the rendered columns in order. *)
Lemma columnRowsLoop_result (columns : list TableCol) (columnRows : list string) :
  columnRowsLoop GetBigQueryColumnString columns columnRows =
    match head (omap (fun c => (GetBigQueryColumnString c true).2) columns) with
    | Some e => ([], Some (AddStack e))
    | None =>
        (columnRows ++ ((fun c => (GetBigQueryColumnString c true).1) <$> columns),
         None)
    end.
Proof.
  revert columnRows.
  induction columns as [|column rest IH]; intros columnRows; simpl.
  - now rewrite app_nil_r.
  - destruct (GetBigQueryColumnString column true) as [row [e|]]; simpl;
      [reflexivity|].
    rewrite IH. destruct (head _); [reflexivity|].
    now rewrite <- app_assoc.
Qed.

(** Overwriting every index in turn is mapping over the rows. *)
Lemma indentRows_from (done todo : list string) :
  fold_left
    (fun sqlRows i =>
       match sqlRows !! i with
       | Some row => <[i := "    " +:+ row]> sqlRows
       | None => sqlRows
       end)
    (seq (length done) (length todo)) (done ++ todo) =
  done ++ ((fun row => "    " +:+ row) <$> todo).
Proof.
  revert done. induction todo as [|row rest IH]; intros done; [reflexivity|].
  simpl. rewrite list_lookup_middle by reflexivity.
  replace (<[length done := "    " +:+ row]> (done ++ row :: rest))
    with ((done ++ ["    " +:+ row]) ++ rest).
  - replace (S (length done)) with (length (done ++ ["    " +:+ row]))
      by (rewrite length_app; simpl; lia).
    rewrite IH. now rewrite <- app_assoc.
  - rewrite <- app_assoc. simpl.
    rewrite insert_app_r_alt by lia. now rewrite Nat.sub_diag.
Qed.

Lemma indentRows_map (sqlRows : list string) :
  indentRows sqlRows = (fun row => "    " +:+ row) <$> sqlRows.
Proof. exact (indentRows_from [] sqlRows). Qed.

(** X9.  [GenCreateSchema] fails exactly when some column cannot be
    rendered: it then returns the empty string and the traced error of the
    first such column, whatever the later columns and the primary key
    are. *)
Theorem GenCreateSchema_first_error (columns : list TableCol)
    (pkColumns : list string) (datasetID tableID : string) :
  match head (omap (fun c => (GetBigQueryColumnString c true).2) columns) with
  | Some e =>
      GenCreateSchema GetBigQueryColumnString columns pkColumns
                      datasetID tableID = ("", Some (AddStack e))
  | None =>
      (GenCreateSchema GetBigQueryColumnString columns pkColumns
                       datasetID tableID).2 = None
  end.
Proof.
  unfold GenCreateSchema. rewrite columnRowsLoop_result.
  destruct (head _); reflexivity.
Qed.

(** X10.  When every column can be rendered, [GenCreateSchema] returns the
    CREATE OR REPLACE TABLE statement whose body has one row per column, in
    column order, followed by a PRIMARY KEY ... NOT ENFORCED row exactly
    when [pkColumns] is not empty; every row is indented by four spaces and
    the rows are separated by a comma and a line feed. *)
Theorem GenCreateSchema_text (columns : list TableCol)
    (pkColumns : list string) (datasetID tableID : string) :
  (forall c, c ∈ columns -> (GetBigQueryColumnString c true).2 = None) ->
  let rows := (fun c => (GetBigQueryColumnString c true).1) <$> columns in
  let keyRow :=
    match pkColumns with
    | [] => []
    | _ => ["PRIMARY KEY (" +:+ strings_Join pkColumns ", " +:+ ") NOT ENFORCED"]
    end in
  GenCreateSchema GetBigQueryColumnString columns pkColumns datasetID tableID =
    ("CREATE OR REPLACE TABLE " +:+ datasetID +:+ "." +:+ tableID +:+ " (" +:+
     LF +:+
     strings_Join ((fun row => "    " +:+ row) <$> (rows ++ keyRow))
                  ("," +:+ LF) +:+
     LF +:+ ")",
     None).
Proof.
  intros Hok rows keyRow. subst rows keyRow.
  unfold GenCreateSchema. rewrite columnRowsLoop_result.
  assert (Hnone : head (omap (fun c => (GetBigQueryColumnString c true).2)
                             columns) = None).
  { destruct (head _) as [e|] eqn:Hhead; [|reflexivity].
    apply head_Some_elem_of, list_elem_of_omap in Hhead as (c & Hin & Herr).
    rewrite (Hok c Hin) in Herr. discriminate. }
  rewrite Hnone. simpl. rewrite indentRows_map.
  f_equal.
  replace (if bool_decide (0 < length pkColumns)
           then ((fun c => (GetBigQueryColumnString c true).1) <$> columns) ++
                ["PRIMARY KEY (" +:+ strings_Join pkColumns ", " +:+
                 ") NOT ENFORCED"]
           else (fun c => (GetBigQueryColumnString c true).1) <$> columns)
    with (((fun c => (GetBigQueryColumnString c true).1) <$> columns) ++
          match pkColumns with
          | [] => []
          | _ => ["PRIMARY KEY (" +:+ strings_Join pkColumns ", " +:+
                  ") NOT ENFORCED"]
          end).
  - now rewrite !string_app_assoc.
  - destruct pkColumns; simpl; [now rewrite app_nil_r | reflexivity].
Qed.


End BigqueryExtras.

Lemma GenCreateSchema_text_witness :
  Bigquerysql.GenCreateSchema Bigquerysql.sampleColumnString
      (Columns Bigquerysql.usersTable) ["id"] "ds" "users" =
    ("CREATE OR REPLACE TABLE ds.users (" +:+ Bigquerysql.LF +:+
     "    id INT64," +:+ Bigquerysql.LF +:+
     "    name STRING," +:+ Bigquerysql.LF +:+
     "    PRIMARY KEY (id) NOT ENFORCED" +:+ Bigquerysql.LF +:+ ")",
     None).
Proof.
  rewrite (GenCreateSchema_text Bigquerysql.sampleColumnString
             (Columns Bigquerysql.usersTable) ["id"] "ds" "users").
  - reflexivity.
  - intros c Hin.
    apply elem_of_cons in Hin as [-> | Hin]; [reflexivity|].
    apply elem_of_cons in Hin as [-> | Hin]; [reflexivity|].
    by apply elem_of_nil in Hin.
Defined.

(** ** Databricks: what the loop over the diff returns *)

Section DatabricksExtras.

Import Databrickssql.

Variable GetColumnDiff :
  list TableCol -> list TableCol -> list ColumnDiff * option error.
Variable GetDatabricksTypeString : TableCol -> string * option error.

(** On a well-formed diff the loop returns the error of the first item the
    dialect refuses, and the statements of all items when there is none. *)
Lemma renderItems_result (table : string) (columnDiff : list ColumnDiff)
    (ddls : list string) :
  Forall wellFormed columnDiff ->
  renderItems GetDatabricksTypeString table columnDiff ddls =
    match head (omap (refusal GetDatabricksTypeString) columnDiff) with
    | Some e => Returns ([], Some e)
    | None =>
        Returns
          (ddls ++ omap (statementOf GetDatabricksTypeString table) columnDiff,
           None)
    end.
Proof.
  revert ddls.
  induction columnDiff as [|item rest IH]; intros ddls Hwf.
  - simpl. now rewrite app_nil_r.
  - apply Forall_cons in Hwf as [Hwf Hwfs].
    unfold wellFormed in Hwf.
    simpl. unfold refusal at 1, Databrickssql.statementOf at 1.
    destruct (Action item) eqn:Hact.
    + rewrite appendDDL_empty, IH by assumption.
      now destruct (Before item), (After item).
    + destruct Hwf as [after Hafter]. rewrite Hafter.
      unfold GetDatabricksColumnString.
      destruct (GetDatabricksTypeString after) as [typeStr [typeErr|]]; simpl;
        [now rewrite AddStack_idemp|].
      match goal with
      | |- context [appendDDL ddls ?ddl] =>
          change ddl with
            ("ALTER TABLE " +:+
             ((table +:+ " ADD COLUMN ") +:+
              (if bool_decide (Nullable after = "false")
               then (Name after +:+ " " +:+ typeStr) +:+ " NOT NULL"
               else Name after +:+ " " +:+ typeStr)))
      end.
      rewrite appendDDL_alter, IH by assumption.
      destruct (head _); [reflexivity|].
      rewrite <- app_assoc. simpl. do 3 f_equal.
      destruct (Before item); simpl; now rewrite !string_app_assoc.
    + destruct Hwf as [before Hbefore]. rewrite Hbefore. simpl.
      change ("" +:+ "ALTER TABLE " +:+ table +:+ " DROP COLUMN " +:+ Name before)
        with ("ALTER TABLE " +:+ table +:+ " DROP COLUMN " +:+ Name before).
      rewrite appendDDL_alter, IH by assumption.
      destruct (head _); [reflexivity|].
      rewrite <- app_assoc. simpl. do 3 f_equal.
      destruct (After item); now rewrite !string_app_assoc.
    + now destruct (After item).
    + destruct Hwf as [[before Hbefore] [after Hafter]].
      rewrite Hbefore, Hafter. simpl.
      change ("" +:+ "ALTER TABLE " +:+ table +:+ " RENAME COLUMN " +:+
              Name before +:+ " TO " +:+ Name after)
        with ("ALTER TABLE " +:+ table +:+ " RENAME COLUMN " +:+
              Name before +:+ " TO " +:+ Name after).
      rewrite appendDDL_alter, IH by assumption.
      destruct (head _); [reflexivity|].
      rewrite <- app_assoc. simpl. do 3 f_equal.
      now rewrite !string_app_assoc.
Qed.

(** The loop never hands back statements together with an error. *)
Lemma renderItems_all_or_nothing (table : string) (columnDiff : list ColumnDiff)
    (ddls0 ddls : list string) (e : error) :
  renderItems GetDatabricksTypeString table columnDiff ddls0 =
    Returns (ddls, Some e) ->
  ddls = [].
Proof.
  revert ddls0.
  induction columnDiff as [|item rest IH]; intros ddls0; simpl;
    [discriminate|].
  destruct (Action item).
  - apply IH.
  - destruct (After item) as [after|]; [|discriminate].
    destruct (GetDatabricksColumnString GetDatabricksTypeString after)
      as [colStr [err|]]; simpl; [congruence | apply IH].
  - destruct (Before item); [apply IH | discriminate].
  - congruence.
  - destruct (Before item), (After item); try discriminate. apply IH.
Qed.

(** Every statement the loop adds alters the table and ends in a
    semicolon. *)
Lemma renderItems_alter_statements (table : string)
    (columnDiff : list ColumnDiff) (ddls0 ddls : list string) :
  Forall (altersTable table) ddls0 ->
  renderItems GetDatabricksTypeString table columnDiff ddls0 =
    Returns (ddls, None) ->
  Forall (altersTable table) ddls.
Proof.
  revert ddls0.
  induction columnDiff as [|item rest IH]; intros ddls0 Hacc; simpl.
  - intros [= <-]. exact Hacc.
  - assert (Hsnoc : forall body,
              Forall (altersTable table)
                (appendDDL ddls0 ("ALTER TABLE " +:+ table +:+ " " +:+ body))).
    { intros body. rewrite appendDDL_alter. apply Forall_app. split; [exact Hacc|].
      apply Forall_singleton. exists body. now rewrite !string_app_assoc. }
    destruct (Action item).
    + apply IH. now rewrite appendDDL_empty.
    + destruct (After item) as [after|]; [|discriminate].
      destruct (GetDatabricksColumnString GetDatabricksTypeString after)
        as [colStr [err|]]; simpl; [discriminate|].
      apply IH.
      change (("" +:+ "ALTER TABLE " +:+ table +:+ " ADD COLUMN ") +:+ colStr)
        with ("ALTER TABLE " +:+ ((table +:+ " ADD COLUMN ") +:+ colStr)).
      rewrite !string_app_assoc. apply (Hsnoc ("ADD COLUMN " +:+ colStr)).
    + destruct (Before item) as [before|]; [|discriminate].
      apply IH. apply (Hsnoc ("DROP COLUMN " +:+ Name before)).
    + discriminate.
    + destruct (Before item) as [before|], (After item) as [after|];
        try discriminate.
      apply IH.
      apply (Hsnoc ("RENAME COLUMN " +:+ Name before +:+ " TO " +:+ Name after)).
Qed.

(** X12.  [GenDDLViaColumnsDiff] returns statements or an error, never
    both: whenever the error is not nil, no statement is returned, also
    when statements had been collected before the item that failed. *)
Theorem GenDDLViaColumnsDiff_all_or_nothing (prevColumns : list TableCol)
    (curTableDef : TableDefinition) (ddls : list string) (e : error) :
  (GenDDLViaColumnsDiff GetColumnDiff GetDatabricksTypeString
     prevColumns curTableDef).1 = Returns (ddls, Some e) ->
  ddls = [].
Proof.
  unfold GenDDLViaColumnsDiff.
  repeat (case_bool_decide; [simpl; congruence|]).
  destruct (GetColumnDiff prevColumns (Columns curTableDef))
    as [columnDiff [err|]]; simpl; [congruence|].
  apply renderItems_all_or_nothing.
Qed.

(** X13.  [GenDDLViaColumnsDiff] does not panic when the diff engine
    answers a well-formed diff (an Add item has its After column, a Drop
    item its Before column, a Rename item both), whatever the change type
    and whatever the type renderer answers. *)
Theorem GenDDLViaColumnsDiff_no_panic (prevColumns : list TableCol)
    (curTableDef : TableDefinition) :
  Forall wellFormed (GetColumnDiff prevColumns (Columns curTableDef)).1 ->
  exists ddls err,
    (GenDDLViaColumnsDiff GetColumnDiff GetDatabricksTypeString
       prevColumns curTableDef).1 = Returns (ddls, err).
Proof.
  intros Hwf. unfold GenDDLViaColumnsDiff.
  repeat (case_bool_decide; [simpl; eauto|]).
  destruct (GetColumnDiff prevColumns (Columns curTableDef))
    as [columnDiff [err|]]; simpl in *; [eauto|].
  rewrite renderItems_result by exact Hwf.
  destruct (head _); eauto.
Qed.

(** X14.  The diff engine is consulted exactly when the change type is
    none of the six table-level types, and then once, with the previous
    columns and the columns of the current definition; an error of the diff
    engine is returned traced, with no statement. *)
Theorem GenDDLViaColumnsDiff_diff_call (prevColumns : list TableCol)
    (curTableDef : TableDefinition) :
  (GenDDLViaColumnsDiff GetColumnDiff GetDatabricksTypeString
     prevColumns curTableDef).2 =
    (if bool_decide (Type' curTableDef = ActionOther)
     then [(prevColumns, Columns curTableDef)] else []) /\
  (Type' curTableDef = ActionOther ->
   forall e,
     (GetColumnDiff prevColumns (Columns curTableDef)).2 = Some e ->
     (GenDDLViaColumnsDiff GetColumnDiff GetDatabricksTypeString
        prevColumns curTableDef).1 = Returns ([], Some (AddStack e))).
Proof.
  unfold GenDDLViaColumnsDiff.
  destruct (Type' curTableDef); simpl;
    try (split; [reflexivity | discriminate]).
  destruct (GetColumnDiff prevColumns (Columns curTableDef))
    as [columnDiff [err|]]; simpl.
  - split; [reflexivity|]. intros _ e [= ->]. reflexivity.
  - split; [reflexivity|]. discriminate.
Qed.

(** X15.  Every statement [GenDDLViaColumnsDiff] returns for a column diff
    is an ALTER TABLE statement on the table of the current definition and
    ends in a semicolon. *)
Theorem GenDDLViaColumnsDiff_alter_statements (prevColumns : list TableCol)
    (curTableDef : TableDefinition) (ddls : list string) :
  Type' curTableDef = ActionOther ->
  (GenDDLViaColumnsDiff GetColumnDiff GetDatabricksTypeString
     prevColumns curTableDef).1 = Returns (ddls, None) ->
  forall ddl, ddl ∈ ddls ->
    exists body,
      ddl = "ALTER TABLE " +:+ Table curTableDef +:+ " " +:+ body +:+ ";".
Proof.
  unfold GenDDLViaColumnsDiff. intros ->. simpl.
  destruct (GetColumnDiff prevColumns (Columns curTableDef))
    as [columnDiff [err|]]; simpl; [discriminate|].
  intros Hrun ddl Hin.
  apply (renderItems_alter_statements _ _ [] ddls) in Hrun; [|constructor].
  rewrite Forall_forall in Hrun. exact (Hrun ddl Hin).
Qed.

(** X16.  For a well-formed column diff, the error [GenDDLViaColumnsDiff]
    returns is that of the first item the dialect refuses: the Modify error
    for a Modify item, the error of the type renderer for an added column
    whose type it does not know, with a stack trace added if it had none
    (the second errors.Trace on its way leaves it as it is).  When no item
    is refused the statements of all items are returned. *)
Theorem GenDDLViaColumnsDiff_first_refusal (prevColumns : list TableCol)
    (curTableDef : TableDefinition) (columnDiff : list ColumnDiff) :
  Type' curTableDef = ActionOther ->
  GetColumnDiff prevColumns (Columns curTableDef) = (columnDiff, None) ->
  Forall wellFormed columnDiff ->
  (GenDDLViaColumnsDiff GetColumnDiff GetDatabricksTypeString
     prevColumns curTableDef).1 =
    match head (omap (refusal GetDatabricksTypeString) columnDiff) with
    | Some e => Returns ([], Some e)
    | None =>
        Returns
          (omap (statementOf GetDatabricksTypeString (Table curTableDef))
                columnDiff,
           None)
    end.
Proof.
  intros Hty Hdiff Hwf. unfold GenDDLViaColumnsDiff.
  rewrite Hty, Hdiff. simpl. now rewrite renderItems_result.
Qed.

End DatabricksExtras.

Section DatabricksExtraSamples.

Import Databrickssql.

Lemma GenDDLViaColumnsDiff_all_or_nothing_witness :
  exists ddls e,
    (GenDDLViaColumnsDiff (answering dropAndAddUnknown) sampleTypeString
       ordersBefore (ordersTable ActionOther)).1 = Returns (ddls, Some e) /\
    ddls = [].
Proof.
  exists [], (ErrTrace (ErrExternal "unsupported type")).
  split; [reflexivity|].
  apply (GenDDLViaColumnsDiff_all_or_nothing (answering dropAndAddUnknown)
           sampleTypeString ordersBefore (ordersTable ActionOther)
           [] (ErrTrace (ErrExternal "unsupported type"))).
  reflexivity.
Defined.

Lemma GenDDLViaColumnsDiff_no_panic_witness :
  exists ddls err,
    (GenDDLViaColumnsDiff (answering addDropRename) sampleTypeString
       ordersBefore (ordersTable ActionOther)).1 = Returns (ddls, err).
Proof.
  apply (GenDDLViaColumnsDiff_no_panic (answering addDropRename)
           sampleTypeString ordersBefore (ordersTable ActionOther)).
  repeat constructor; by eexists.
Defined.

Lemma GenDDLViaColumnsDiff_alter_statements_witness :
  exists body,
    "ALTER TABLE orders RENAME COLUMN qty TO quantity;" =
    "ALTER TABLE " +:+ "orders" +:+ " " +:+ body +:+ ";".
Proof.
  apply (GenDDLViaColumnsDiff_alter_statements (answering addDropRename)
           sampleTypeString ordersBefore (ordersTable ActionOther)
           ["ALTER TABLE orders ADD COLUMN note STRING;";
            "ALTER TABLE orders DROP COLUMN memo;";
            "ALTER TABLE orders RENAME COLUMN qty TO quantity;"]).
  - reflexivity.
  - reflexivity.
  - right. right. left.
Defined.

Lemma GenDDLViaColumnsDiff_first_refusal_witness :
  (GenDDLViaColumnsDiff (answering dropAndAddUnknown) sampleTypeString
     ordersBefore (ordersTable ActionOther)).1 =
    Returns
      ([], Some (ErrTrace (ErrExternal "unsupported type"))).
Proof.
  rewrite (GenDDLViaColumnsDiff_first_refusal (answering dropAndAddUnknown)
             sampleTypeString ordersBefore (ordersTable ActionOther)
             dropAndAddUnknown).
  - reflexivity.
  - reflexivity.
  - reflexivity.
  - repeat constructor; by eexists.
Defined.

End DatabricksExtraSamples.
